(** * Torre Automation API: flags, industry classifier and endpoints

    A shallow embedding of [main.py].  Python strings are modelled by
    [string] (ASCII text, on which [str.lower] maps [A-Z] to [a-z] and fixes
    every other character), SQL columns by [option] values ([None] is NULL),
    SQL predicates by three-valued logic, timestamps by seconds since the
    epoch in [Z], and the calls into the warehouse client by a state and
    exception monad over an explicit [World]. *)

From Stdlib Require Import List String Ascii ZArith Lia Bool.
From Stdlib Require Import DecimalString Sorted.
Import ListNotations.
Open Scope string_scope.
Open Scope Z_scope.

(* ================================================================== *)
(** ** Python strings *)

Module PyStr.

(** [str.lower] on one ASCII character. *)
Definition lower_char (c : ascii) : ascii :=
  let n := nat_of_ascii c in
  if (Nat.leb 65 n && Nat.leb n 90)%bool then ascii_of_nat (n + 32) else c.

(** [s.lower()] *)
Fixpoint lower (s : string) : string :=
  match s with
  | EmptyString => EmptyString
  | String c t => String (lower_char c) (lower t)
  end.

(** [text.startswith(word)] *)
Fixpoint startswith (word text : string) : bool :=
  match word, text with
  | EmptyString, _ => true
  | String _ _, EmptyString => false
  | String a w, String b t => (Ascii.eqb a b && startswith w t)%bool
  end.

(** [word in text]: [word] occurs in [text] as a contiguous substring. *)
Fixpoint contains (word text : string) : bool :=
  (startswith word text
   || match text with
      | EmptyString => false
      | String _ t => contains word t
      end)%bool.

(** [any(word in text for word in words)] *)
Definition any_in (text : string) (words : list string) : bool :=
  existsb (fun word => contains word text) words.

(** [str(n)] for an [int]. *)
Definition str_int (n : Z) : string := NilZero.string_of_int (Z.to_int n).

(** [str(x)] / f-string interpolation of a nullable text column. *)
Definition str_opt (x : option string) : string :=
  match x with Some s => s | None => "None" end.

(** [x if x else d] on a nullable text column: [None] and [''] are falsy. *)
Definition or_default (x : option string) (d : string) : string :=
  match x with
  | Some (String a s) => String a s
  | _ => d
  end.

End PyStr.
Import PyStr.

(* ================================================================== *)
(** ** Industry classifier ([detect_industry]) *)

Definition technology_keywords : list string :=
  ["developer"; "engineer"; "software"; "programmer"; "tech"; "data";
   "cloud"; "devops"; "frontend"; "backend"].
Definition sales_marketing_keywords : list string :=
  ["sales"; "marketing"; "account"; "business development"; "growth"].
Definition finance_keywords : list string :=
  ["finance"; "accountant"; "financial"; "controller"; "cfo"].
Definition healthcare_keywords : list string :=
  ["health"; "medical"; "doctor"; "nurse"; "clinical"].
Definition design_keywords : list string :=
  ["design"; "ux"; "ui"; "graphic"; "creative"].
Definition operations_hr_keywords : list string :=
  ["human resources"; "hr"; "operations"; "admin"].
Definition customer_service_keywords : list string :=
  ["customer"; "support"; "service"; "success"].

(** [detect_industry(vacancy_name, company_name)], branch for branch. *)
Definition detect_industry (vacancy_name company_name : string) : string :=
  let text := lower (vacancy_name ++ " " ++ company_name) in
  if any_in text technology_keywords then "technology"
  else if any_in text sales_marketing_keywords then "sales_marketing"
  else if any_in text finance_keywords then "finance"
  else if any_in text healthcare_keywords then "healthcare"
  else if any_in text design_keywords then "design"
  else if any_in text operations_hr_keywords then "operations_hr"
  else if any_in text customer_service_keywords then "customer_service"
  else "general".

(** The eight category labels. *)
Definition categories : list string :=
  ["technology"; "sales_marketing"; "finance"; "healthcare"; "design";
   "operations_hr"; "customer_service"; "general"].

(** The keyword lists the classifier tests, in the order it tests them. *)
Definition priority_table : list (string * list string) :=
  [("technology", technology_keywords);
   ("sales_marketing", sales_marketing_keywords);
   ("finance", finance_keywords);
   ("healthcare", healthcare_keywords);
   ("design", design_keywords);
   ("operations_hr", operations_hr_keywords);
   ("customer_service", customer_service_keywords)].

(** Specification side of the classifier: the first category of a table
    one of whose keywords occurs in [text], and ["general"] when none does. *)
Fixpoint first_match (table : list (string * list string)) (text : string)
  : string :=
  match table with
  | [] => "general"
  | (cat, kws) :: rest =>
      if any_in text kws then cat else first_match rest text
  end.

(** The classifier as the specification words it: the text is the title
    directly followed by the organization. *)
Definition classify_concat (title organization : string) : string :=
  first_match priority_table (lower (title ++ organization)).

(** The same with the two parts separated by one space. *)
Definition classify_spaced (title organization : string) : string :=
  first_match priority_table (lower (title ++ " " ++ organization)).

(* ================================================================== *)
(** ** SQL: nullable columns and three-valued predicates *)

Module Sql.

(** Truth value of a predicate: [None] is UNKNOWN. *)
Definition tv := option bool.

Definition tv_and (a b : tv) : tv :=
  match a, b with
  | Some false, _ | _, Some false => Some false
  | Some true, Some true => Some true
  | _, _ => None
  end.

Definition tv_or (a b : tv) : tv :=
  match a, b with
  | Some true, _ | _, Some true => Some true
  | Some false, Some false => Some false
  | _, _ => None
  end.

(** A WHERE or ON clause keeps a row only when its predicate is TRUE. *)
Definition holds (a : tv) : bool :=
  match a with Some true => true | _ => false end.

Definition cmp {A} (f : A -> A -> bool) (a b : option A) : tv :=
  match a, b with
  | Some x, Some y => Some (f x y)
  | _, _ => None
  end.

Definition eq_str := cmp String.eqb.
Definition neq_str := cmp (fun x y => negb (String.eqb x y)).
Definition eq_Z := cmp Z.eqb.
Definition lt_Z := cmp Z.ltb.
Definition ge_Z := cmp Z.geb.

Definition is_null {A} (a : option A) : tv :=
  match a with None => Some true | Some _ => Some false end.

Definition coalesce {A} (a : option A) (d : A) : A :=
  match a with Some x => x | None => d end.

(** [MAX] and [MIN] over a column: NULLs are skipped, an empty input is NULL. *)
Fixpoint agg_max (l : list (option Z)) : option Z :=
  match l with
  | [] => None
  | None :: t => agg_max t
  | Some x :: t =>
      match agg_max t with Some m => Some (Z.max x m) | None => Some x end
  end.

Fixpoint agg_min (l : list (option Z)) : option Z :=
  match l with
  | [] => None
  | None :: t => agg_min t
  | Some x :: t =>
      match agg_min t with Some m => Some (Z.min x m) | None => Some x end
  end.

(** The non-NULL values of a column. *)
Fixpoint non_null {A} (l : list (option A)) : list A :=
  match l with
  | [] => []
  | Some x :: t => x :: non_null t
  | None :: t => non_null t
  end.

(** [COUNT(DISTINCT col)] *)
Definition count_distinct (l : list (option string)) : nat :=
  List.length (nodup string_dec (non_null l)).

(** Seconds in a day; [INTERVAL 'n days']. *)
Definition interval_days (n : Z) : Z := 86400 * n.

(** ['1970-01-01'::timestamp] *)
Definition epoch : Z := 0.

End Sql.
Import Sql.

Infix "&&&" := tv_and (at level 40, left associativity).
Infix "|||" := tv_or (at level 50, left associativity).

(* ================================================================== *)
(** ** The warehouse tables read by the queries *)

(** [poseidon.mart_jobs], the columns the queries mention. *)
Record Job := {
  mj_objective : option string;
  mj_hash_id : option string;
  mj_locale : option string;
  mj_published_date : option Z;
  mj_organization_name : option string;
  mj_poster_gg_id : option string;
  mj_review : option string;
  mj_status : option string;
  mj_valuable_appls : option Z;
  mj_business_line : option string;
  mj_poster_first_post : option Z;
  mj_opportunity_id : option Z
}.

(** [poseidon.mart_genomes] *)
Record Genome := {
  mg_name : option string;
  mg_email : option string;
  mg_gg_id : option string
}.

(** [poseidon.mart_applications] *)
Record Application := {
  ma_opportunity_id : option Z;
  ma_disqualified_date : option Z;
  ma_mm_date : option Z
}.

(** A result row of a flag query: columns 0 to 7 are common to the three
    queries, column 8 ([r_extra]) differs. *)
Record Row (X : Type) := {
  r_ts_name : option string;
  r_ts_email : option string;
  r_vacancy_name : option string;
  r_hash_id : option string;
  r_locale : option string;
  r_published_date : option Z;
  r_company_name : option string;
  r_poster_gg_id : option string;
  r_extra : X
}.
Arguments Build_Row {X}.
Arguments r_ts_name {X}. Arguments r_ts_email {X}.
Arguments r_vacancy_name {X}. Arguments r_hash_id {X}.
Arguments r_locale {X}. Arguments r_published_date {X}.
Arguments r_company_name {X}. Arguments r_poster_gg_id {X}.
Arguments r_extra {X}.

(** A result row of the client query. *)
Record ClientRow := {
  c_name : option string;
  c_email : option string;
  c_gg_id : option string;
  c_total_jobs : nat;
  c_open_jobs : nat;
  c_first_job_date : option Z;
  c_last_job_date : option Z
}.

Record Warehouse := {
  mart_jobs : list Job;
  mart_genomes : list Genome;
  mart_applications : list Application;
  (** [current_date], as a day number. *)
  current_day : Z;
  (** What the warehouse answers when the e-mail pasted into the client
      query contains a quote or a backslash, so that the text sent is no
      longer the query written in the source. *)
  injected_answer : string -> list ClientRow
}.

Definition current_date (wh : Warehouse) : Z := interval_days (current_day wh).

Section Decidable.

Definition opt_dec {A} (d : forall x y : A, {x = y} + {x <> y})
  : forall x y : option A, {x = y} + {x <> y}.
Proof. decide equality. Defined.

Definition row_dec {X} (d : forall x y : X, {x = y} + {x <> y})
  : forall x y : Row X, {x = y} + {x <> y}.
Proof.
  pose proof (opt_dec string_dec). pose proof (opt_dec Z.eq_dec).
  decide equality.
Defined.

Definition unit_dec : forall x y : unit, {x = y} + {x <> y}.
Proof. decide equality. Defined.

Definition key3_dec
  : forall x y : option string * option string * option string,
    {x = y} + {x <> y}.
Proof. pose proof (opt_dec string_dec). decide equality. decide equality. Defined.

End Decidable.

(* ================================================================== *)
(** ** The flag queries *)

Module Query.

(** [mart_jobs mj INNER JOIN mart_genomes mg ON mj.poster_gg_id = mg.gg_id] *)
Definition jobs_join_genomes (wh : Warehouse) : list (Job * Genome) :=
  flat_map
    (fun mj =>
       map (pair mj)
         (filter (fun mg => holds (eq_str (mj_poster_gg_id mj) (mg_gg_id mg)))
            (mart_genomes wh)))
    (mart_jobs wh).

(** [(mj.business_line <> 'torre_os' OR mj.business_line IS NULL)] *)
Definition not_torre_os (mj : Job) : tv :=
  neq_str (mj_business_line mj) (Some "torre_os")
  ||| is_null (mj_business_line mj).

(** Columns 0 to 7 of the three SELECT lists. *)
Definition select {X} (mj : Job) (mg : Genome) (x : X) : Row X :=
  {| r_ts_name := mg_name mg;
     r_ts_email := mg_email mg;
     r_vacancy_name := mj_objective mj;
     r_hash_id := mj_hash_id mj;
     r_locale := mj_locale mj;
     r_published_date := mj_published_date mj;
     r_company_name := mj_organization_name mj;
     r_poster_gg_id := mj_poster_gg_id mj;
     r_extra := x |}.

(** [ORDER BY published_date DESC]: NULLs sort first. *)
Definition before (a b : option Z) : bool :=
  match a, b with
  | None, Some _ => true
  | Some x, Some y => y <? x
  | _, None => false
  end.

Fixpoint insert_desc {X} (r : Row X) (l : list (Row X)) : list (Row X) :=
  match l with
  | [] => [r]
  | x :: t =>
      if before (r_published_date x) (r_published_date r)
      then x :: insert_desc r t
      else r :: x :: t
  end.

Definition order_by_published_desc {X} (l : list (Row X)) : list (Row X) :=
  fold_right insert_desc [] l.

(** [SELECT DISTINCT ... ORDER BY mj.published_date DESC] over the rows
    already projected. *)
Definition distinct_ordered {X} (d : forall x y : X, {x = y} + {x <> y})
    (l : list (Row X)) : list (Row X) :=
  order_by_published_desc (nodup (row_dec d) l).

(** WHERE clause of the new-ts-posting query. *)
Definition where_new_ts_posting (wh : Warehouse) (days : Z) (mj : Job) : tv :=
  eq_Z (mj_published_date mj) (mj_poster_first_post mj)
  &&& eq_str (mj_status mj) (Some "open")
  &&& ge_Z (mj_published_date mj)
        (Some (current_date wh - interval_days days))
  &&& lt_Z (mj_published_date mj)
        (Some (current_date wh + interval_days 1))
  &&& not_torre_os mj.

Definition new_ts_posting (days : Z) (wh : Warehouse)
  : list (Row (option string)) :=
  distinct_ordered (opt_dec string_dec)
    (map (fun p => select (fst p) (snd p) (mj_review (fst p)))
       (filter (fun p => holds (where_new_ts_posting wh days (fst p)))
          (jobs_join_genomes wh))).

(** WHERE clause of the less-than-6 query. *)
Definition where_less_than_6 (wh : Warehouse) (days : Z) (mj : Job) : tv :=
  eq_str (mj_review mj) (Some "approved")
  &&& eq_str (mj_status mj) (Some "open")
  &&& lt_Z (mj_valuable_appls mj) (Some 6)
  &&& ge_Z (mj_published_date mj)
        (Some (current_date wh - interval_days days))
  &&& lt_Z (mj_published_date mj)
        (Some (current_date wh + interval_days 1))
  &&& not_torre_os mj.

Definition less_than_6 (days : Z) (wh : Warehouse) : list (Row (option Z)) :=
  distinct_ordered (opt_dec Z.eq_dec)
    (map (fun p => select (fst p) (snd p) (mj_valuable_appls (fst p)))
       (filter (fun p => holds (where_less_than_6 wh days (fst p)))
          (jobs_join_genomes wh))).

(** [GREATEST(COALESCE(disqualified_date, epoch), COALESCE(mm_date, epoch))] *)
Definition greatest_event (ma : Application) : Z :=
  Z.max (coalesce (ma_disqualified_date ma) epoch)
        (coalesce (ma_mm_date ma) epoch).

(** GROUP BY puts the rows with a NULL key in one group. *)
Definition same_group (k : option Z) (ma : Application) : bool :=
  if opt_dec Z.eq_dec k (ma_opportunity_id ma) then true else false.

(** The derived table [activity]: one row per [opportunity_id] with the
    [MAX] of [greatest_event] over the group. *)
Definition activity (apps : list Application) : list (option Z * option Z) :=
  map
    (fun k =>
       (k, agg_max (map (fun ma => Some (greatest_event ma))
                      (filter (same_group k) apps))))
    (nodup (opt_dec Z.eq_dec) (map ma_opportunity_id apps)).

(** [... LEFT JOIN activity ON mj.opportunity_id = activity.opportunity_id]:
    the joined rows carry [activity.last_activity], NULL when no row of
    [activity] matches. *)
Definition left_join_activity (wh : Warehouse)
  : list (Job * Genome * option Z) :=
  flat_map
    (fun p =>
       match filter (fun a => holds (eq_Z (mj_opportunity_id (fst p)) (fst a)))
               (activity (mart_applications wh)) with
       | [] => [(p, None)]
       | matches => map (fun a => (p, snd a)) matches
       end)
    (jobs_join_genomes wh).

(** WHERE clause of the no-activity query. *)
Definition where_no_activity (wh : Warehouse) (inactive_days lookback_days : Z)
    (mj : Job) (last_activity : option Z) : tv :=
  eq_str (mj_review mj) (Some "approved")
  &&& eq_str (mj_status mj) (Some "open")
  &&& ge_Z (mj_published_date mj)
        (Some (current_date wh - interval_days lookback_days))
  &&& not_torre_os mj
  &&& (lt_Z last_activity
         (Some (current_date wh - interval_days inactive_days))
       ||| is_null last_activity).

Definition no_activity (inactive_days lookback_days : Z) (wh : Warehouse)
  : list (Row unit) :=
  distinct_ordered unit_dec
    (map (fun q => select (fst (fst q)) (snd (fst q)) tt)
       (filter
          (fun q => holds (where_no_activity wh inactive_days lookback_days
                             (fst (fst q)) (snd q)))
          (left_join_activity wh))).

(** [mart_genomes mg LEFT JOIN mart_jobs mj ON mg.gg_id = mj.poster_gg_id] *)
Definition genomes_left_join_jobs (wh : Warehouse)
  : list (Genome * option Job) :=
  flat_map
    (fun mg =>
       match filter
               (fun mj => holds (eq_str (mg_gg_id mg) (mj_poster_gg_id mj)))
               (mart_jobs wh) with
       | [] => [(mg, None)]
       | matches => map (fun mj => (mg, Some mj)) matches
       end)
    (mart_genomes wh).

(** A column of [mj] in a row of the left join: NULL on an unmatched row. *)
Definition mj_col {A} (f : Job -> option A) (p : Genome * option Job)
  : option A :=
  match snd p with Some mj => f mj | None => None end.

(** [CASE WHEN mj.status = 'open' THEN mj.hash_id END] *)
Definition open_hash_id (mj : Job) : option string :=
  if holds (eq_str (mj_status mj) (Some "open")) then mj_hash_id mj else None.

(** [GROUP BY mg.name, mg.email, mg.gg_id] *)
Definition group_key (p : Genome * option Job)
  : option string * option string * option string :=
  (mg_name (fst p), mg_email (fst p), mg_gg_id (fst p)).

Definition in_group (k : option string * option string * option string)
    (p : Genome * option Job) : bool :=
  if key3_dec k (group_key p) then true else false.

(** The client query with [email] as the text of the string literal. *)
Definition client (email : string) (wh : Warehouse) : list ClientRow :=
  let rows :=
    filter (fun p => holds (eq_str (mg_email (fst p)) (Some email)))
      (genomes_left_join_jobs wh) in
  map
    (fun k =>
       let grp := filter (in_group k) rows in
       {| c_name := fst (fst k);
          c_email := snd (fst k);
          c_gg_id := snd k;
          c_total_jobs := count_distinct (map (mj_col mj_hash_id) grp);
          c_open_jobs := count_distinct (map (mj_col open_hash_id) grp);
          c_first_job_date := agg_min (map (mj_col mj_published_date) grp);
          c_last_job_date := agg_max (map (mj_col mj_published_date) grp) |})
    (nodup key3_dec (map group_key rows)).

(** The e-mail is pasted between two quotes: it is the literal compared
    with [mg.email] as long as it holds no quote and no backslash. *)
Definition literal_safe (email : string) : bool :=
  negb (contains "'" email || contains "\" email).

(** What the warehouse answers to the text built by [get_client_details]. *)
Definition client_text (email : string) (wh : Warehouse) : list ClientRow :=
  if literal_safe email then client email wh else injected_answer wh email.

End Query.

(* ================================================================== *)
(** ** The process: warehouse, singleton connection, exceptions *)

(** What the handlers run against.  [pending] lists the outcomes of the
    successive calls into the warehouse client ([None]: the call returns,
    [Some msg]: it raises an exception whose [str] is [msg]); once the list
    is used up every call returns.  A call raises when the connection fails
    and also when the warehouse rejects the text of the query, as it does
    for an interval that leaves the range of its timestamps: which requests
    fail is a matter of the world, so that two requests with different
    parameters are compared from two worlds over one warehouse. *)
Record World := {
  warehouse : Warehouse;
  (** [_poseidon is not None] *)
  poseidon_set : bool;
  pending : list (option string);
  (** [datetime.now().isoformat()] *)
  now_iso : string
}.

Module Py.

(** The exceptions the handlers see, both instances of [Exception]. *)
Inductive exn :=
| Exception (msg : string)
| HTTPException (status_code : Z) (detail : string).

(** [str(e)] *)
Definition str_exn (e : exn) : string :=
  match e with
  | Exception msg => msg
  | HTTPException code detail => str_int code ++ ": " ++ detail
  end.

(** A computation either raises or returns, and leaves a world behind. *)
Definition M (A : Type) : Type := World -> (exn + A) * World.

Definition ret {A} (a : A) : M A := fun w => (inr a, w).

Definition bind {A B} (c : M A) (k : A -> M B) : M B :=
  fun w =>
    match c w with
    | (inr a, w') => k a w'
    | (inl e, w') => (inl e, w')
    end.

Definition raise {A} (e : exn) : M A := fun w => (inl e, w).

(** [try: c  except <every exception> as e: h e] *)
Definition try_except {A} (c : M A) (h : exn -> M A) : M A :=
  fun w =>
    match c w with
    | (inr a, w') => (inr a, w')
    | (inl e, w') => h e w'
    end.

Definition gets {A} (f : World -> A) : M A := fun w => (inr (f w), w).

End Py.
Import Py.

Notation "x <- c ;; k" := (bind c (fun x => k))
  (at level 61, c at next level, right associativity).
Notation "c ;;; k" := (bind c (fun _ => k))
  (at level 61, right associativity).

Definition set_pending (l : list (option string)) (w : World) : World :=
  {| warehouse := warehouse w; poseidon_set := poseidon_set w;
     pending := l; now_iso := now_iso w |}.

Definition set_poseidon (w : World) : World :=
  {| warehouse := warehouse w; poseidon_set := true;
     pending := pending w; now_iso := now_iso w |}.

(** One call into the warehouse client. *)
Definition client_call : M unit :=
  fun w =>
    match pending w with
    | [] => (inr tt, w)
    | None :: rest => (inr tt, set_pending rest w)
    | Some msg :: rest => (inl (Exception msg), set_pending rest w)
    end.

(** [get_poseidon()]: the factory is called only while [_poseidon] is unset,
    and [_poseidon] is set only when the factory returns. *)
Definition get_poseidon : M unit :=
  fun w =>
    if poseidon_set w then (inr tt, w)
    else (client_call ;;; (fun w' => (inr tt, set_poseidon w'))) w.

(** [poseidon.execute_query(query)], the query given by what it denotes on
    the tables; whether the warehouse runs the text or rejects it is the
    outcome of the call. *)
Definition execute_query {A} (query : Warehouse -> A) : M A :=
  client_call ;;; gets (fun w => query (warehouse w)).

(* ================================================================== *)
(** ** Responses *)

(** One element of [data].  [published_date] stands for [str(r[5])] and is
    kept as the value it prints; [rec_extra] is the ninth key of the record
    ([review_status] or [valuable_appls]; the no-activity record has none). *)
Record FlagRecord (X : Type) := {
  ts_name : option string;
  ts_email : option string;
  vacancy_name : string;
  vacancy_link : string;
  locale : option string;
  published_date : option Z;
  company_name : string;
  poster_gg_id : option string;
  rec_extra : X;
  industry : string;
  rec_flag : string
}.
Arguments Build_FlagRecord {X}.
Arguments ts_name {X}. Arguments ts_email {X}. Arguments vacancy_name {X}.
Arguments vacancy_link {X}. Arguments locale {X}.
Arguments published_date {X}. Arguments company_name {X}.
Arguments poster_gg_id {X}. Arguments rec_extra {X}.
Arguments industry {X}. Arguments rec_flag {X}.

(** The body of a flag endpoint that ran to its [return]. *)
Record FlagPayload (X : Type) := {
  flag : string;
  description : string;
  count : nat;
  (** [days_lookback], or [inactive_days_threshold] and [lookback_days]. *)
  parameters : list (string * Z);
  data : list (FlagRecord X)
}.
Arguments Build_FlagPayload {X}.
Arguments flag {X}. Arguments description {X}. Arguments count {X}.
Arguments parameters {X}. Arguments data {X}.

(** [{"success": True, ...}] or [{"success": False, "error": ...}] *)
Inductive FlagResponse (X : Type) :=
| Success (payload : FlagPayload X)
| Failure (error : string).
Arguments Success {X}.
Arguments Failure {X}.

Definition success {X} (r : FlagResponse X) : bool :=
  match r with Success _ => true | Failure _ => false end.

(** [r.get("count", 0)] *)
Definition get_count {X} (r : FlagResponse X) : Z :=
  match r with
  | Success p => Z.of_nat (count p)
  | Failure _ => 0
  end.

(** [r.get("data", [])], for stating what a response lists. *)
Definition get_data {X} (r : FlagResponse X) : list (FlagRecord X) :=
  match r with
  | Success p => data p
  | Failure _ => []
  end.

(* ================================================================== *)
(** ** Flag endpoints *)

(** [build_job_link(hash_id)] *)
Definition build_job_link (hash_id : option string) : string :=
  "https://torre.ai/post/" ++ str_opt hash_id.

(** The body of the [for r in results] loop, the same in the three flags
    up to the ninth key and the tag. *)
Definition shape {X} (tag : string) (r : Row X) : FlagRecord X :=
  let vacancy_name := or_default (r_vacancy_name r) "Untitled Position" in
  let company_name := or_default (r_company_name r) "Company" in
  {| ts_name := r_ts_name r;
     ts_email := r_ts_email r;
     vacancy_name := vacancy_name;
     vacancy_link := build_job_link (r_hash_id r);
     locale := r_locale r;
     published_date := r_published_date r;
     company_name := company_name;
     poster_gg_id := r_poster_gg_id r;
     rec_extra := r_extra r;
     industry := detect_industry vacancy_name company_name;
     rec_flag := tag |}.

(** [except Exception as e: return {"success": False, "error": str(e)}] *)
Definition degrade {X} (e : exn) : M (FlagResponse X) :=
  ret (Failure (str_exn e)).

(** [GET /flags/new-ts-posting] *)
Definition get_new_ts_posting (days : Z) : M (FlagResponse (option string)) :=
  try_except
    (get_poseidon ;;;
     results <- execute_query (Query.new_ts_posting days) ;;
     let data := map (shape "new_ts_posting") results in
     ret (Success
            {| flag := "new_ts_posting";
               description :=
                 "TSs posting for the first time (includes approved & unapproved)";
               count := List.length data;
               parameters := [("days_lookback", days)];
               data := data |}))
    degrade.

(** [GET /flags/less-than-6] *)
Definition get_less_than_6 (days : Z) : M (FlagResponse (option Z)) :=
  try_except
    (get_poseidon ;;;
     results <- execute_query (Query.less_than_6 days) ;;
     let data := map (shape "less_than_6") results in
     ret (Success
            {| flag := "less_than_6";
               description :=
                 "Approved openings with less than 6 relevant applicants";
               count := List.length data;
               parameters := [("days_lookback", days)];
               data := data |}))
    degrade.

(** [GET /flags/no-activity] *)
Definition get_no_activity (inactive_days lookback_days : Z)
  : M (FlagResponse unit) :=
  try_except
    (get_poseidon ;;;
     results <- execute_query (Query.no_activity inactive_days lookback_days) ;;
     let data := map (shape "no_activity") results in
     ret (Success
            {| flag := "no_activity";
               description :=
                 "Approved jobs with no activity in pipeline for "
                 ++ str_int inactive_days ++ "+ days";
               count := List.length data;
               parameters := [("inactive_days_threshold", inactive_days);
                              ("lookback_days", lookback_days)];
               data := data |}))
    degrade.

(* ================================================================== *)
(** ** [GET /flags/all-priorities] *)

Record Summary := {
  total_clients_to_contact : Z;
  breakdown_new_ts_posting : Z;
  breakdown_less_than_6 : Z;
  breakdown_no_activity : Z
}.

Record AllPriorities := {
  flags_new_ts_posting : FlagResponse (option string);
  flags_less_than_6 : FlagResponse (option Z);
  flags_no_activity : FlagResponse unit;
  summary : Summary
}.

Inductive AllResponse :=
| AllSuccess (body : AllPriorities)
| AllFailure (error : string).

Definition get_all_high_priority_flags (days : Z) : M AllResponse :=
  try_except
    (new_ts <- get_new_ts_posting days ;;
     less_6 <- get_less_than_6 days ;;
     no_activity <- get_no_activity 7 days ;;
     let total_count :=
       get_count new_ts + get_count less_6 + get_count no_activity in
     ret (AllSuccess
            {| flags_new_ts_posting := new_ts;
               flags_less_than_6 := less_6;
               flags_no_activity := no_activity;
               summary :=
                 {| total_clients_to_contact := total_count;
                    breakdown_new_ts_posting := get_count new_ts;
                    breakdown_less_than_6 := get_count less_6;
                    breakdown_no_activity := get_count no_activity |} |}))
    (fun e => ret (AllFailure (str_exn e))).

(* ================================================================== *)
(** ** [GET /client/{email}] *)

Record ClientData := {
  cd_name : option string;
  cd_email : option string;
  cd_gg_id : option string;
  total_jobs_posted : nat;
  open_jobs : nat;
  first_job_date : option Z;
  last_job_date : option Z
}.

Inductive ClientResponse :=
| ClientSuccess (data : ClientData)
| ClientFailure (error : string).

Definition get_client_details (email : string) : M ClientResponse :=
  try_except
    (get_poseidon ;;;
     results <- execute_query (Query.client_text email) ;;
     match results with
     | [] => raise (HTTPException 404 "Cliente no encontrado")
     | r :: _ =>
         ret (ClientSuccess
                {| cd_name := c_name r;
                   cd_email := c_email r;
                   cd_gg_id := c_gg_id r;
                   total_jobs_posted := c_total_jobs r;
                   open_jobs := c_open_jobs r;
                   first_job_date := c_first_job_date r;
                   last_job_date := c_last_job_date r |})
     end)
    (fun e =>
       match e with
       | HTTPException _ _ => raise e
       | Exception _ => ret (ClientFailure (str_exn e))
       end).

(* ================================================================== *)
(** ** [GET /] and [GET /industries] *)

Record Health := {
  h_status : string;
  h_service : string;
  h_timestamp : string;
  h_version : string;
  available_flags : list string
}.

Definition health_check : M Health :=
  timestamp <- gets now_iso ;;
  ret {| h_status := "running";
         h_service := "Torre Automation API";
         h_timestamp := timestamp;
         h_version := "2.0.0";
         available_flags :=
           ["new-ts-posting"; "less-than-6"; "less-than-6-24h"; "6-ruled-out";
            "less-than-6-reach"; "new-reach"; "no-activity"] |}.

(** The paths registered with [@app.get]. *)
Definition routes : list string :=
  ["/"; "/flags/new-ts-posting"; "/flags/less-than-6"; "/flags/no-activity";
   "/flags/all-priorities"; "/client/{email}"; "/industries"].

Record Industry := {
  ind_name : string;
  ind_keywords : list string
}.

(** The ["industries"] object of [get_available_industries()], in the order
    it is written; ["success"] is [True]. *)
Definition get_available_industries : list (string * Industry) :=
  [("technology",
    {| ind_name := "Technology";
       ind_keywords := ["developer"; "engineer"; "software"; "tech"; "data";
                        "cloud"] |});
   ("sales_marketing",
    {| ind_name := "Sales & Marketing";
       ind_keywords := ["sales"; "marketing"; "account"; "growth"] |});
   ("finance",
    {| ind_name := "Finance";
       ind_keywords := ["finance"; "accountant"; "financial"; "cfo"] |});
   ("healthcare",
    {| ind_name := "Healthcare";
       ind_keywords := ["health"; "medical"; "doctor"; "nurse"] |});
   ("design",
    {| ind_name := "Design";
       ind_keywords := ["design"; "ux"; "ui"; "graphic"; "creative"] |});
   ("operations_hr",
    {| ind_name := "Operations & HR";
       ind_keywords := ["hr"; "operations"; "admin"] |});
   ("customer_service",
    {| ind_name := "Customer Service";
       ind_keywords := ["customer"; "support"; "service"] |});
   ("general",
    {| ind_name := "General"; ind_keywords := [] |})].

(** The keyword list [detect_industry] tests for a category; it tests none
    for ["general"], its fallback. *)
Definition classifier_keywords (category : string) : list string :=
  match find (fun p => String.eqb (fst p) category) priority_table with
  | Some p => snd p
  | None => []
  end.

(* ================================================================== *)
(** ** The HTTP layer around the flag handlers *)

(** A query parameter that a handler declares [name: int = Query(default)],
    as the framework hands it on: left out of the request, the text of an
    integer, or any other text. *)
Inductive IntParam :=
| Absent
| Int (n : Z)
| NotInt (raw : string).

Definition well_formed (p : IntParam) : bool :=
  match p with NotInt _ => false | _ => true end.

(** The value the handler is called with. *)
Definition value_or (p : IntParam) (default : Z) : Z :=
  match p with Int n => n | _ => default end.

(** The names of the parameters that fail validation. *)
Definition invalid (ps : list (string * IntParam)) : list string :=
  map fst (filter (fun p => negb (well_formed (snd p))) ps).

(** What the caller receives: the body a handler returned, with status
    200; a validation error naming the parameters, with status 422, the
    handler not being called; or the status of an exception the handler
    raised, 500 for one that is not an [HTTPException]. *)
Inductive Http (A : Type) :=
| Http200 (body : A)
| Http422 (parameters : list string)
| HttpStatus (status_code : Z) (detail : string).
Arguments Http200 {A}.
Arguments Http422 {A}.
Arguments HttpStatus {A}.

Definition respond {A} (handler : M A) : World -> Http A * World :=
  fun w =>
    match handler w with
    | (inr body, w') => (Http200 body, w')
    | (inl (HTTPException code detail), w') => (HttpStatus code detail, w')
    | (inl (Exception _), w') => (HttpStatus 500 "Internal Server Error", w')
    end.

(** [GET /flags/new-ts-posting?days=...], [days: int = Query(7)] *)
Definition serve_new_ts_posting (days : IntParam)
  : World -> Http (FlagResponse (option string)) * World :=
  match invalid [("days", days)] with
  | [] => respond (get_new_ts_posting (value_or days 7))
  | names => fun w => (Http422 names, w)
  end.

(** [GET /flags/less-than-6?days=...], [days: int = Query(30)] *)
Definition serve_less_than_6 (days : IntParam)
  : World -> Http (FlagResponse (option Z)) * World :=
  match invalid [("days", days)] with
  | [] => respond (get_less_than_6 (value_or days 30))
  | names => fun w => (Http422 names, w)
  end.

(** [GET /flags/no-activity?inactive_days=...&lookback_days=...],
    [inactive_days: int = Query(7)], [lookback_days: int = Query(30)] *)
Definition serve_no_activity (inactive_days lookback_days : IntParam)
  : World -> Http (FlagResponse unit) * World :=
  match invalid [("inactive_days", inactive_days);
                 ("lookback_days", lookback_days)] with
  | [] => respond (get_no_activity (value_or inactive_days 7)
                     (value_or lookback_days 30))
  | names => fun w => (Http422 names, w)
  end.

(* ================================================================== *)
(** ** Vocabulary of the statements and sample worlds *)

(** [l1] is [l2] with some elements left out. *)
Inductive Subseq {A : Type} : list A -> list A -> Prop :=
| Subseq_nil : forall l, Subseq [] l
| Subseq_keep : forall x l1 l2, Subseq l1 l2 -> Subseq (x :: l1) (x :: l2)
| Subseq_skip : forall x l1 l2, Subseq l1 l2 -> Subseq l1 (x :: l2).

(** The two client calls every querying endpoint starts with. *)
Definition client_calls : M unit := get_poseidon ;;; execute_query (fun _ => tt).

(** The exception they raise, if they do. *)
Definition query_failure (w : World) : option exn :=
  match fst (client_calls w) with
  | inl e => Some e
  | inr _ => None
  end.

(** The world they leave. *)
Definition after_calls (w : World) : World := snd (client_calls w).

(** What a run lists: the [data] of the response it returns. *)
Definition listed {X} (out : (exn + FlagResponse X) * World)
  : list (FlagRecord X) :=
  match fst out with
  | inr r => get_data r
  | inl _ => []
  end.

(** A world whose warehouse is empty and whose first client call, the
    connection factory, raises. *)
Definition empty_warehouse : Warehouse :=
  {| mart_jobs := []; mart_genomes := []; mart_applications := [];
     current_day := 20000; injected_answer := fun _ => [] |}.

Definition world_refused : World :=
  {| warehouse := empty_warehouse; poseidon_set := false;
     pending := [Some "connection refused"]; now_iso := "2024-10-04T00:00:00" |}.

(** A posting and a profile that the ON clause of the join pairs. *)
Definition joined (mj : Job) (mg : Genome) : Prop :=
  exists id, mj_poster_gg_id mj = Some id /\ mg_gg_id mg = Some id.

(** The publish timestamp lies in [today - days, today + 1 day). *)
Definition in_lookback_window (wh : Warehouse) (days : Z) (t : option Z) : Prop :=
  exists ts, t = Some ts
             /\ current_date wh - interval_days days <= ts
             /\ ts < current_date wh + interval_days 1.

(** The conditions of the less-than-6 flag on a posting. *)
Definition less_than_6_conditions (wh : Warehouse) (days : Z) (mj : Job) : Prop :=
  mj_review mj = Some "approved"
  /\ mj_status mj = Some "open"
  /\ (exists n, mj_valuable_appls mj = Some n /\ n < 6)
  /\ mj_business_line mj <> Some "torre_os"
  /\ in_lookback_window wh days (mj_published_date mj).

(** The conditions of the new-ts-posting flag on a posting. *)
Definition new_ts_posting_conditions (wh : Warehouse) (days : Z) (mj : Job) : Prop :=
  (exists ts, mj_published_date mj = Some ts /\ mj_poster_first_post mj = Some ts)
  /\ mj_status mj = Some "open"
  /\ mj_business_line mj <> Some "torre_os"
  /\ in_lookback_window wh days (mj_published_date mj).

(** The last activity of a posting as the specification words it: the
    greatest, over the activity rows of its opportunity, of the later of the
    two event timestamps of the row, a missing one counting as the epoch;
    NULL when the opportunity has no row (or the posting no opportunity). *)
Definition last_activity (apps : list Application) (oid : option Z) : option Z :=
  match oid with
  | None => None
  | Some id =>
      agg_max
        (map (fun ma => Some (Query.greatest_event ma))
           (filter (Query.same_group (Some id)) apps))
  end.

(** The conditions of the no-activity flag on a posting. *)
Definition no_activity_conditions (wh : Warehouse) (inactive_days lookback_days : Z)
    (mj : Job) : Prop :=
  mj_review mj = Some "approved"
  /\ mj_status mj = Some "open"
  /\ mj_business_line mj <> Some "torre_os"
  /\ (exists ts, mj_published_date mj = Some ts
                 /\ current_date wh - interval_days lookback_days <= ts)
  /\ (last_activity (mart_applications wh) (mj_opportunity_id mj) = None
      \/ exists t,
          last_activity (mart_applications wh) (mj_opportunity_id mj) = Some t
          /\ t < current_date wh - interval_days inactive_days).

(** A poster profile. *)
Definition ana : Genome :=
  {| mg_name := Some "Ana"; mg_email := Some "ana@acme.co";
     mg_gg_id := Some "gg-ana" |}.

(** An approved, open posting of Ana, first of its poster, with no business
    line and opportunity [opp]. *)
Definition posting (hash : string) (published appls opp : Z) : Job :=
  {| mj_objective := Some "Sales Engineer";
     mj_hash_id := Some hash;
     mj_locale := Some "en";
     mj_published_date := Some published;
     mj_organization_name := Some "Acme";
     mj_poster_gg_id := Some "gg-ana";
     mj_review := Some "approved";
     mj_status := Some "open";
     mj_valuable_appls := Some appls;
     mj_business_line := None;
     mj_poster_first_post := Some published;
     mj_opportunity_id := Some opp |}.

(** A world on day 20000 whose client calls all return. *)
Definition world_of (jobs : list Job) (genomes : list Genome)
    (apps : list Application) : World :=
  {| warehouse :=
       {| mart_jobs := jobs; mart_genomes := genomes;
          mart_applications := apps; current_day := 20000;
          injected_answer := fun _ => [] |};
     poseidon_set := false; pending := [];
     now_iso := "2024-10-04T09:30:00" |}.

(** Three days before today. *)
Definition recent : Z := interval_days 19997.

(** Two postings of Ana that differ in the count of valuable applicants. *)
Definition five : Job := posting "h5" recent 5 1.
Definition six : Job := posting "h6" recent 6 2.
Definition world_demo : World := world_of [five; six] [ana] [].

(** A qualifying posting whose poster has no profile row. *)
Definition world_orphan : World := world_of [five] [] [].

(** A posting dated tomorrow at midnight. *)
Definition tomorrow : Job := posting "hf" (interval_days 20001) 5 3.
Definition world_future : World := world_of [tomorrow] [ana] [].

(** No row of the activity table belongs to the posting. *)
Definition no_activity_rows (wh : Warehouse) (mj : Job) : Prop :=
  forall ma id,
    In ma (mart_applications wh) -> mj_opportunity_id mj = Some id ->
    ma_opportunity_id ma <> Some id.

(** How a record comes from a row: title and organization replaced by
    their defaults when missing (or empty) and kept otherwise, the industry
    computed from the two values so obtained, the link built from the hash
    id, the tag of the flag, and the other columns copied. *)
Definition shaped_from {X} (tag : string) (r : Row X) (rec : FlagRecord X) : Prop :=
  (r_vacancy_name r = None -> vacancy_name rec = "Untitled Position")
  /\ (r_company_name r = None -> company_name rec = "Company")
  /\ (forall s, r_vacancy_name r = Some s ->
        vacancy_name rec = if String.eqb s "" then "Untitled Position" else s)
  /\ (forall s, r_company_name r = Some s ->
        company_name rec = if String.eqb s "" then "Company" else s)
  /\ industry rec = detect_industry (vacancy_name rec) (company_name rec)
  /\ vacancy_link rec = "https://torre.ai/post/" ++ str_opt (r_hash_id r)
  /\ rec_flag rec = tag
  /\ ts_name rec = r_ts_name r
  /\ ts_email rec = r_ts_email r
  /\ locale rec = r_locale r
  /\ published_date rec = r_published_date r
  /\ poster_gg_id rec = r_poster_gg_id r
  /\ rec_extra rec = r_extra r.

(** The keywords [GET /industries] lists for a category. *)
Definition listed_keywords (category : string) : list string :=
  match find (fun p => String.eqb (fst p) category) get_available_industries with
  | Some p => ind_keywords (snd p)
  | None => []
  end.

(** The keywords the classifier tests for a category and the listing does
    not show. *)
Definition unlisted_keywords (category : string) : list string :=
  filter (fun kw => negb (existsb (String.eqb kw) (listed_keywords category)))
    (classifier_keywords category).

(** A posting of Ana with neither title nor organization. *)
Definition untitled : Job :=
  {| mj_objective := None;
     mj_hash_id := Some "hu";
     mj_locale := None;
     mj_published_date := Some recent;
     mj_organization_name := None;
     mj_poster_gg_id := Some "gg-ana";
     mj_review := Some "approved";
     mj_status := Some "open";
     mj_valuable_appls := Some 0;
     mj_business_line := Some "agile";
     mj_poster_first_post := Some recent;
     mj_opportunity_id := None |}.

(** The postings of a poster. *)
Definition postings_of (wh : Warehouse) (gg : option string) : list Job :=
  filter (fun mj => holds (eq_str gg (mj_poster_gg_id mj))) (mart_jobs wh).

(** The rows of the left join kept by the WHERE clause. *)
Definition client_rows (email : string) (wh : Warehouse)
  : list (Genome * option Job) :=
  filter (fun p => holds (eq_str (mg_email (fst p)) (Some email)))
    (Query.genomes_left_join_jobs wh).

(** The ["data"] object built from the first row of the client query. *)
Definition client_data (r : ClientRow) : ClientData :=
  {| cd_name := c_name r;
     cd_email := c_email r;
     cd_gg_id := c_gg_id r;
     total_jobs_posted := c_total_jobs r;
     open_jobs := c_open_jobs r;
     first_job_date := c_first_job_date r;
     last_job_date := c_last_job_date r |}.

(** [d] is the summary of the poster profile [mg], which has the e-mail:
    its name, e-mail and id, the number of distinct hash ids among the
    postings that bear its id, the number among the open ones, and the
    earliest and latest publish dates of these postings. *)
Definition summarises (wh : Warehouse) (email : string) (mg : Genome)
    (d : ClientData) : Prop :=
  In mg (mart_genomes wh)
  /\ mg_email mg = Some email
  /\ cd_name d = mg_name mg
  /\ cd_email d = Some email
  /\ cd_gg_id d = mg_gg_id mg
  /\ total_jobs_posted d
     = count_distinct (map mj_hash_id (postings_of wh (mg_gg_id mg)))
  /\ open_jobs d
     = count_distinct (map Query.open_hash_id (postings_of wh (mg_gg_id mg)))
  /\ first_job_date d
     = agg_min (map mj_published_date (postings_of wh (mg_gg_id mg)))
  /\ last_job_date d
     = agg_max (map mj_published_date (postings_of wh (mg_gg_id mg))).

(** [HTTPException(status_code=404, detail="Cliente no encontrado")] *)
Definition not_found : exn := HTTPException 404 "Cliente no encontrado".

(** The same posting, closed. *)
Definition closed (mj : Job) : Job :=
  {| mj_objective := mj_objective mj;
     mj_hash_id := mj_hash_id mj;
     mj_locale := mj_locale mj;
     mj_published_date := mj_published_date mj;
     mj_organization_name := mj_organization_name mj;
     mj_poster_gg_id := mj_poster_gg_id mj;
     mj_review := mj_review mj;
     mj_status := Some "closed";
     mj_valuable_appls := mj_valuable_appls mj;
     mj_business_line := mj_business_line mj;
     mj_poster_first_post := mj_poster_first_post mj;
     mj_opportunity_id := mj_opportunity_id mj |}.

(** Ana with three postings, two of them open. *)
Definition world_three : World :=
  world_of [posting "a" (interval_days 19990) 1 1;
            closed (posting "b" (interval_days 19995) 2 2);
            posting "c" (interval_days 19999) 3 3] [ana] [].

(** [result] is [cat] or comes before it in the order of [categories]. *)
Definition at_or_before (cat result : string) : Prop :=
  exists pre post,
    categories = (pre ++ cat :: post)%list /\ In result (pre ++ [cat])%list.

(** The first publish date is not earlier than the second, a NULL date
    counting as later than every other. *)
Definition not_earlier (a b : option Z) : Prop :=
  match a, b with
  | None, _ => True
  | Some _, None => False
  | Some x, Some y => y <= x
  end.

(** Records in the order of their publish dates, latest first. *)
Definition latest_first {X} (l : list (FlagRecord X)) : Prop :=
  StronglySorted
    (fun a b => not_earlier (published_date a) (published_date b)) l.

(** The first and last publish dates of a client are both missing, or the
    first is not after the last. *)
Definition dates_in_order (first last : option Z) : Prop :=
  match first, last with
  | None, None => True
  | Some a, Some b => a <= b
  | _, _ => False
  end.

(** Ana's posting whose opportunity 1 saw its last event on day [day]. *)
Definition active_on (day : Z) : World :=
  world_of [five] [ana]
    [{| ma_opportunity_id := Some 1;
        ma_disqualified_date := Some (interval_days day);
        ma_mm_date := None |}].

(* ================================================================== *)
(** * Properties *)


(** ** Substring test *)

Lemma startswith_spec (word text : string) :
  startswith word text = true <-> exists post, text = word ++ post.
Proof.
  revert text; induction word as [|a w IH]; intros text; simpl.
  - split; [intros _; now exists text | reflexivity].
  - destruct text as [|b t].
    + split; [discriminate | intros [post H]; discriminate].
    + rewrite andb_true_iff, Ascii.eqb_eq, IH. split.
      * intros [-> [post ->]]. now exists post.
      * intros [post H]. injection H as -> ->. split; [reflexivity | now exists post].
Qed.

(** [contains] is the occurrence of [word] somewhere inside [text]. *)
Lemma contains_spec (word text : string) :
  contains word text = true <-> exists pre post, text = pre ++ word ++ post.
Proof.
  induction text as [|b t IH].
  - cbn [contains]. rewrite orb_false_r, startswith_spec. split.
    + intros [post H]. now exists "", post.
    + intros [pre [post H]]. destruct pre; [now exists post | discriminate].
  - cbn [contains]. rewrite orb_true_iff, startswith_spec, IH. split.
    + intros [[post H] | [pre [post H]]].
      * now exists "", post.
      * exists (String b pre), post. simpl. now rewrite H.
    + intros [pre [post H]]. destruct pre as [|c pre].
      * left. now exists post.
      * right. simpl in H. injection H as _ H. now exists pre, post.
Qed.

Lemma any_in_spec (text : string) (words : list string) :
  any_in text words = true <->
  exists word, In word words /\ contains word text = true.
Proof. unfold any_in. apply existsb_exists. Qed.

(** ** The classifier *)

(** What [first_match] returns: the category of the first entry with a
    keyword in the text, every entry before it having none. *)
Lemma first_match_hit table text pre cat kws post :
  table = (pre ++ (cat, kws) :: post)%list ->
  Forall (fun p => any_in text (snd p) = false) pre ->
  any_in text kws = true ->
  first_match table text = cat.
Proof.
  intros -> Hpre Hhit. induction Hpre as [|[c k] pre Hc _ IH]; simpl.
  - now rewrite Hhit.
  - simpl in Hc. now rewrite Hc.
Qed.

Lemma first_match_miss table text :
  Forall (fun p => any_in text (snd p) = false) table ->
  first_match table text = "general".
Proof.
  induction 1 as [|[c k] t Hc _ IH]; simpl; [reflexivity|].
  simpl in Hc. now rewrite Hc.
Qed.

Lemma first_match_cases table text :
  (exists pre cat kws post,
      table = (pre ++ (cat, kws) :: post)%list /\
      Forall (fun p => any_in text (snd p) = false) pre /\
      any_in text kws = true /\
      first_match table text = cat)
  \/ (Forall (fun p => any_in text (snd p) = false) table /\
      first_match table text = "general").
Proof.
  induction table as [|[c k] t IH]; simpl.
  - right. split; [constructor | reflexivity].
  - destruct (any_in text k) eqn:Hk.
    + left. exists [], c, k, t. repeat split; [constructor | assumption].
    + destruct IH as [(pre & cat & kws & post & -> & Hpre & Hhit & Hres) | [Hall Hres]].
      * left. exists ((c, k) :: pre), cat, kws, post.
        repeat split; [constructor; assumption | assumption | assumption].
      * right. split; [constructor; assumption | assumption].
Qed.

Lemma detect_industry_in_categories v c : In (detect_industry v c) categories.
Proof.
  unfold detect_industry, categories.
  repeat match goal with
         | |- context [if ?b then _ else _] => destruct b
         end; simpl; tauto.
Qed.

(** C1 (as amended).  The classifier is a total function of two strings:
    it lowercases the title, one space and the organization, and returns
    the first category, in the order technology, sales_marketing, finance,
    healthcare, design, operations_hr, customer_service, one of whose
    keywords occurs in that text, and general when none does; its result is
    one of the eight categories, two empty strings give general, and
    ("Sales Engineer", "Acme") gives technology. *)
Theorem detect_industry_first_match_spaced :
  (forall title organization,
      detect_industry title organization
      = first_match priority_table (lower (title ++ " " ++ organization))
      /\ In (detect_industry title organization) categories)
  /\ map fst priority_table
     = ["technology"; "sales_marketing"; "finance"; "healthcare"; "design";
        "operations_hr"; "customer_service"]
  /\ detect_industry "" "" = "general"
  /\ detect_industry "Sales Engineer" "Acme" = "technology".
Proof.
  split; [|repeat split].
  intros title organization. split.
  - reflexivity.
  - apply detect_industry_in_categories.
Qed.

(** C1 (as stated) fails: with the title directly followed by the
    organization, "Business" and "Development Group" hold no keyword, while
    the code finds "business development" across the space it inserts. *)
Lemma detect_industry_not_plain_concat :
  detect_industry "Business" "Development Group" = "sales_marketing"
  /\ classify_concat "Business" "Development Group" = "general"
  /\ detect_industry "Business" "Development Group"
     <> classify_concat "Business" "Development Group".
Proof. repeat split. vm_compute. discriminate. Qed.

(** ** The industries listing *)

Lemma Subseq_incl {A} (l1 l2 : list A) : Subseq l1 l2 -> incl l1 l2.
Proof.
  induction 1 as [l | x l1 l2 _ IH | x l1 l2 _ IH]; intros y Hy.
  - destruct Hy.
  - destruct Hy as [-> | Hy]; [now left | right; now apply IH].
  - right. now apply IH.
Qed.

(** The listing has the eight categories, in the classifier's order with
    general last, and shows no keyword the classifier does not test: for
    each category its keywords are tested ones, in the same order. *)
Theorem industries_listing_subseq_of_classifier :
  map fst get_available_industries = categories
  /\ Forall (fun p => Subseq (ind_keywords (snd p)) (classifier_keywords (fst p)))
       get_available_industries
  /\ Forall (fun p => fst p = "design" \/ fst p = "general" ->
                      ind_keywords (snd p) = classifier_keywords (fst p))
       get_available_industries.
Proof.
  split; [reflexivity | split].
  - unfold get_available_industries. repeat (apply Forall_cons || apply Forall_nil);
      cbn; repeat constructor.
  - unfold get_available_industries. repeat (apply Forall_cons || apply Forall_nil);
      cbn; intros [H | H]; try discriminate H; reflexivity.
Qed.

(** For technology the listing has six keywords and the classifier tests
    ten. *)
Lemma industries_listing_differs_from_classifier :
  In ("technology",
      {| ind_name := "Technology";
         ind_keywords := ["developer"; "engineer"; "software"; "tech"; "data";
                          "cloud"] |}) get_available_industries
  /\ classifier_keywords "technology"
     = ["developer"; "engineer"; "software"; "programmer"; "tech"; "data";
        "cloud"; "devops"; "frontend"; "backend"]
  /\ ~ (forall category ind,
           In (category, ind) get_available_industries ->
           ind_keywords ind = classifier_keywords category).
Proof.
  split; [now left | split; [reflexivity|]].
  intros H. specialize (H _ _ (or_introl eq_refl)). discriminate H.
Qed.

(** C6, where the code departs from it.  The listing has the eight
    categories, but its keyword lists are not those the classifier tests:
    nine tested keywords are missing from it, in six categories, so that a
    title such as "Programmer" is classified technology on a keyword the
    listing does not show for any category. *)
Theorem industries_listing_omits_tested_keywords :
  map fst get_available_industries = categories
  /\ map (fun c => (c, unlisted_keywords c)) categories
     = [("technology", ["programmer"; "devops"; "frontend"; "backend"]);
        ("sales_marketing", ["business development"]);
        ("finance", ["controller"]);
        ("healthcare", ["clinical"]);
        ("design", []);
        ("operations_hr", ["human resources"]);
        ("customer_service", ["success"]);
        ("general", [])]
  /\ listed_keywords "technology"
     = ["developer"; "engineer"; "software"; "tech"; "data"; "cloud"]
  /\ classifier_keywords "technology"
     = ["developer"; "engineer"; "software"; "programmer"; "tech"; "data";
        "cloud"; "devops"; "frontend"; "backend"]
  /\ detect_industry "Programmer" "Acme" = "technology"
  /\ Forall (fun c => any_in (lower ("Programmer" ++ " " ++ "Acme"))
                        (listed_keywords c) = false) categories.
Proof.
  split; [reflexivity | split; [reflexivity | split; [reflexivity|]]].
  split; [reflexivity | split; [reflexivity|]].
  repeat constructor.
Qed.

(** ** The health endpoint *)

(** C10.  Whatever the world, [GET /] returns without touching it, with
    the timestamp read from the clock and the same seven flag names; four of
    them name no registered path, the other three do, and all-priorities is
    registered but not named. *)
Theorem health_check_available_flags :
  forall w,
    exists h,
      health_check w = (inr h, w)
      /\ h_timestamp h = now_iso w
      /\ available_flags h
         = ["new-ts-posting"; "less-than-6"; "less-than-6-24h"; "6-ruled-out";
            "less-than-6-reach"; "new-reach"; "no-activity"]
      /\ List.length (available_flags h) = 7%nat
      /\ Forall (fun name => ~ In ("/flags/" ++ name) routes)
           ["less-than-6-24h"; "6-ruled-out"; "less-than-6-reach"; "new-reach"]
      /\ Forall (fun name => In ("/flags/" ++ name) routes)
           ["new-ts-posting"; "less-than-6"; "no-activity"]
      /\ In "/flags/all-priorities" routes
      /\ ~ In "all-priorities" (available_flags h).
Proof.
  intros w. eexists. split; [reflexivity|]. cbn [h_timestamp available_flags].
  repeat split.
  - repeat constructor; cbn; intros H;
      repeat (destruct H as [H | H]; [discriminate H|]); exact H.
  - repeat constructor; cbn; tauto.
  - cbn; tauto.
  - cbn. intros H. repeat (destruct H as [H | H]; [discriminate H|]). exact H.
Qed.

(* ================================================================== *)
(** ** Running the client calls of an endpoint *)

Lemma warehouse_after_calls w : warehouse (after_calls w) = warehouse w.
Proof.
  unfold after_calls, client_calls, get_poseidon, execute_query, client_call,
    bind, gets.
  destruct w as [wh set pend now]; simpl.
  destruct set; simpl.
  - destruct pend as [|[m|] rest]; reflexivity.
  - destruct pend as [|[m|] rest]; simpl; try reflexivity.
    destruct rest as [|[m|] rest]; reflexivity.
Qed.

(** Only the client raises there, and what it raises is a plain exception. *)
Lemma query_failure_plain w e :
  query_failure w = Some e -> exists msg, e = Exception msg.
Proof.
  unfold query_failure, client_calls, get_poseidon, execute_query, client_call,
    bind, gets.
  destruct w as [wh set pend now]; simpl.
  destruct set; simpl.
  - destruct pend as [|[m|] rest]; simpl; intros H; inversion H. now exists m.
  - destruct pend as [|[m|] rest]; simpl.
    + intros H; inversion H.
    + intros H; inversion H. now exists m.
    + destruct rest as [|[m|] rest]; simpl; intros H; inversion H. now exists m.
Qed.

(** The calls of an endpoint for a query [q] behave as [client_calls], and
    hand [q] evaluated on the warehouse to what follows. *)
Lemma run_calls {A B} (q : Warehouse -> A) (k : A -> M B) w :
  (get_poseidon ;;; results <- execute_query q ;; k results) w
  = match query_failure w with
    | Some e => (inl e, after_calls w)
    | None => k (q (warehouse w)) (after_calls w)
    end.
Proof.
  unfold query_failure, after_calls, client_calls, get_poseidon, execute_query,
    client_call, bind, gets.
  destruct w as [wh set pend now]; simpl.
  destruct set; simpl.
  - destruct pend as [|[m|] rest]; reflexivity.
  - destruct pend as [|[m|] rest]; simpl; try reflexivity.
    destruct rest as [|[m|] rest]; reflexivity.
Qed.

Lemma run_guarded {A B} (q : Warehouse -> A) (k : A -> M B) (h : exn -> M B) w :
  try_except (get_poseidon ;;; results <- execute_query q ;; k results) h w
  = match query_failure w with
    | Some e => h e (after_calls w)
    | None => try_except (k (q (warehouse w))) h (after_calls w)
    end.
Proof.
  unfold try_except at 1. rewrite run_calls.
  destruct (query_failure w); reflexivity.
Qed.

(** The query step alone raises exactly what [query_failure] tells. *)
Lemma run_query_step {A} (q : Warehouse -> A) w :
  (get_poseidon ;;; execute_query q) w
  = match query_failure w with
    | Some e => (inl e, after_calls w)
    | None => (inr (q (warehouse w)), after_calls w)
    end.
Proof.
  unfold query_failure, after_calls, client_calls, get_poseidon, execute_query,
    client_call, bind, gets.
  destruct w as [wh set pend now]; simpl.
  destruct set; simpl.
  - destruct pend as [|[m|] rest]; reflexivity.
  - destruct pend as [|[m|] rest]; simpl; try reflexivity.
    destruct rest as [|[m|] rest]; reflexivity.
Qed.

(** The three flag endpoints, run. *)
Lemma run_new_ts_posting days w :
  get_new_ts_posting days w
  = (inr match query_failure w with
         | Some e => Failure (str_exn e)
         | None =>
             let data := map (shape "new_ts_posting")
                           (Query.new_ts_posting days (warehouse w)) in
             Success
               {| flag := "new_ts_posting";
                  description :=
                    "TSs posting for the first time (includes approved & unapproved)";
                  count := List.length data;
                  parameters := [("days_lookback", days)];
                  data := data |}
         end, after_calls w).
Proof.
  unfold get_new_ts_posting. rewrite run_guarded.
  destruct (query_failure w); reflexivity.
Qed.

Lemma run_less_than_6 days w :
  get_less_than_6 days w
  = (inr match query_failure w with
         | Some e => Failure (str_exn e)
         | None =>
             let data := map (shape "less_than_6")
                           (Query.less_than_6 days (warehouse w)) in
             Success
               {| flag := "less_than_6";
                  description :=
                    "Approved openings with less than 6 relevant applicants";
                  count := List.length data;
                  parameters := [("days_lookback", days)];
                  data := data |}
         end, after_calls w).
Proof.
  unfold get_less_than_6. rewrite run_guarded.
  destruct (query_failure w); reflexivity.
Qed.

Lemma run_no_activity inactive_days lookback_days w :
  get_no_activity inactive_days lookback_days w
  = (inr match query_failure w with
         | Some e => Failure (str_exn e)
         | None =>
             let data := map (shape "no_activity")
                           (Query.no_activity inactive_days lookback_days
                              (warehouse w)) in
             Success
               {| flag := "no_activity";
                  description :=
                    "Approved jobs with no activity in pipeline for "
                    ++ str_int inactive_days ++ "+ days";
                  count := List.length data;
                  parameters := [("inactive_days_threshold", inactive_days);
                                 ("lookback_days", lookback_days)];
                  data := data |}
         end, after_calls w).
Proof.
  unfold get_no_activity. rewrite run_guarded.
  destruct (query_failure w); reflexivity.
Qed.

Lemma listed_new_ts_posting days w :
  query_failure w = None ->
  listed (get_new_ts_posting days w)
  = map (shape "new_ts_posting") (Query.new_ts_posting days (warehouse w)).
Proof. intros H. rewrite run_new_ts_posting, H. reflexivity. Qed.

Lemma listed_less_than_6 days w :
  query_failure w = None ->
  listed (get_less_than_6 days w)
  = map (shape "less_than_6") (Query.less_than_6 days (warehouse w)).
Proof. intros H. rewrite run_less_than_6, H. reflexivity. Qed.

Lemma listed_no_activity inactive_days lookback_days w :
  query_failure w = None ->
  listed (get_no_activity inactive_days lookback_days w)
  = map (shape "no_activity")
      (Query.no_activity inactive_days lookback_days (warehouse w)).
Proof. intros H. rewrite run_no_activity, H. reflexivity. Qed.

(** ** Failures of the flag endpoints *)




(** ** The aggregate endpoint *)

(** C2.  Whatever the world, the aggregate endpoint runs the three flag
    endpoints in turn, no-activity with 7 inactive days and the shared
    lookback, each from the world its predecessor left; it returns success
    with the three responses as they came, failures included, and a total
    that is the sum of their counts, a failure counting for 0. *)
Theorem all_priorities_sums_counts :
  forall days w,
    exists new_ts w1 less_6 w2 no_activity w3,
      get_new_ts_posting days w = (inr new_ts, w1)
      /\ get_less_than_6 days w1 = (inr less_6, w2)
      /\ get_no_activity 7 days w2 = (inr no_activity, w3)
      /\ get_all_high_priority_flags days w
         = (inr (AllSuccess
                   {| flags_new_ts_posting := new_ts;
                      flags_less_than_6 := less_6;
                      flags_no_activity := no_activity;
                      summary :=
                        {| total_clients_to_contact :=
                             get_count new_ts + get_count less_6
                             + get_count no_activity;
                           breakdown_new_ts_posting := get_count new_ts;
                           breakdown_less_than_6 := get_count less_6;
                           breakdown_no_activity := get_count no_activity |} |}),
            w3)
      /\ get_count new_ts
         = (if success new_ts then Z.of_nat (List.length (get_data new_ts)) else 0)
      /\ get_count less_6
         = (if success less_6 then Z.of_nat (List.length (get_data less_6)) else 0)
      /\ get_count no_activity
         = (if success no_activity
            then Z.of_nat (List.length (get_data no_activity)) else 0).
Proof.
  intros days w.
  do 6 eexists.
  split; [apply run_new_ts_posting|].
  split; [apply run_less_than_6|].
  split; [apply run_no_activity|].
  split.
  - unfold get_all_high_priority_flags, try_except, bind at 1.
    rewrite run_new_ts_posting. unfold bind at 1.
    rewrite run_less_than_6. unfold bind at 1.
    rewrite run_no_activity. reflexivity.
  - repeat split; destruct (query_failure _); simpl;
      rewrite ?length_map; reflexivity.
Qed.

(* ================================================================== *)
(** ** The queries, stage by stage *)

Lemma holds_and a b : holds (a &&& b) = (holds a && holds b)%bool.
Proof. destruct a as [[|]|], b as [[|]|]; reflexivity. Qed.

Lemma holds_or a b : holds (a ||| b) = (holds a || holds b)%bool.
Proof. destruct a as [[|]|], b as [[|]|]; reflexivity. Qed.

Lemma holds_eq_str a b :
  holds (eq_str a b) = true <-> exists s, a = Some s /\ b = Some s.
Proof.
  destruct a as [x|], b as [y|]; simpl.
  - destruct (String.eqb_spec x y) as [->|Hne]; split.
    + intros _. now exists y.
    + reflexivity.
    + discriminate.
    + intros [s [H1 H2]]. congruence.
  - split; [discriminate | intros [s [_ H]]; discriminate].
  - split; [discriminate | intros [s [H _]]; discriminate].
  - split; [discriminate | intros [s [H _]]; discriminate].
Qed.

Lemma holds_eq_str_lit a s : holds (eq_str a (Some s)) = true <-> a = Some s.
Proof.
  rewrite holds_eq_str. split.
  - intros [x [-> H]]. now inversion H.
  - intros ->. now exists s.
Qed.

Lemma holds_eq_Z a b :
  holds (eq_Z a b) = true <-> exists z, a = Some z /\ b = Some z.
Proof.
  destruct a as [x|], b as [y|]; simpl.
  - destruct (Z.eqb_spec x y) as [->|Hne]; split.
    + intros _. now exists y.
    + reflexivity.
    + discriminate.
    + intros [s [H1 H2]]. congruence.
  - split; [discriminate | intros [s [_ H]]; discriminate].
  - split; [discriminate | intros [s [H _]]; discriminate].
  - split; [discriminate | intros [s [H _]]; discriminate].
Qed.

Lemma holds_lt_Z a y : holds (lt_Z a (Some y)) = true <-> exists x, a = Some x /\ x < y.
Proof.
  destruct a as [x|]; simpl.
  - destruct (Z.ltb_spec x y); split.
    + intros _. now exists x.
    + reflexivity.
    + discriminate.
    + intros [z [H1 H2]]. inversion H1. lia.
  - split; [discriminate | intros [z [H _]]; discriminate].
Qed.

Lemma holds_ge_Z a y : holds (ge_Z a (Some y)) = true <-> exists x, a = Some x /\ y <= x.
Proof.
  destruct a as [x|]; simpl.
  - rewrite Z.geb_leb. destruct (Z.leb_spec y x); split.
    + intros _. now exists x.
    + reflexivity.
    + discriminate.
    + intros [z [H1 H2]]. inversion H1. lia.
  - split; [discriminate | intros [z [H _]]; discriminate].
Qed.

Lemma holds_is_null {A} (a : option A) : holds (is_null a) = true <-> a = None.
Proof. destruct a; simpl; split; congruence. Qed.

(** The business-line predicate keeps NULL and every line but torre_os. *)
Lemma holds_not_torre_os mj :
  holds (Query.not_torre_os mj) = true <-> mj_business_line mj <> Some "torre_os".
Proof.
  unfold Query.not_torre_os. destruct (mj_business_line mj) as [s|]; simpl.
  - destruct (String.eqb_spec s "torre_os") as [->|Hne]; simpl.
    + split; [discriminate | intros H; now elim H].
    + split; [intros _ H; inversion H; contradiction | reflexivity].
  - split; [discriminate | reflexivity].
Qed.

Lemma In_jobs_join_genomes wh mj mg :
  In (mj, mg) (Query.jobs_join_genomes wh)
  <-> In mj (mart_jobs wh) /\ In mg (mart_genomes wh) /\ joined mj mg.
Proof.
  unfold Query.jobs_join_genomes, joined. rewrite in_flat_map. split.
  - intros [x [Hx Hin]]. apply in_map_iff in Hin as [g [Heq Hg]].
    inversion Heq; subst. apply filter_In in Hg as [Hg Hon].
    apply holds_eq_str in Hon. auto.
  - intros (Hj & Hg & Hon). exists mj. split; [assumption|].
    apply in_map. apply filter_In. split; [assumption|].
    now apply holds_eq_str.
Qed.

Lemma In_insert_desc {X} (r x : Row X) l :
  In x (Query.insert_desc r l) <-> x = r \/ In x l.
Proof.
  induction l as [|y t IH]; simpl.
  - intuition.
  - destruct (Query.before _ _); simpl; rewrite ?IH; intuition.
Qed.

Lemma In_order_by_published_desc {X} (x : Row X) l :
  In x (Query.order_by_published_desc l) <-> In x l.
Proof.
  induction l as [|y t IH]; simpl; [reflexivity|].
  rewrite In_insert_desc, IH. intuition.
Qed.

(** DISTINCT and ORDER BY change neither which rows are returned ... *)
Lemma In_distinct_ordered {X} d (x : Row X) l :
  In x (Query.distinct_ordered d l) <-> In x l.
Proof.
  unfold Query.distinct_ordered.
  rewrite In_order_by_published_desc. apply nodup_In.
Qed.

Lemma NoDup_insert_desc {X} (r : Row X) l :
  ~ In r l -> NoDup l -> NoDup (Query.insert_desc r l).
Proof.
  induction l as [|y t IH]; simpl; intros Hr Hl.
  - constructor; [tauto | constructor].
  - inversion Hl; subst. destruct (Query.before _ _).
    + constructor.
      * rewrite In_insert_desc. intros [-> | H]; tauto.
      * apply IH; tauto.
    + constructor; [simpl; tauto | assumption].
Qed.

(** ... and no row is returned twice. *)
Lemma NoDup_distinct_ordered {X} d (l : list (Row X)) :
  NoDup (Query.distinct_ordered d l).
Proof.
  unfold Query.distinct_ordered.
  pose proof (NoDup_nodup (row_dec d) l) as H.
  induction H as [|x t Hx Ht IH]; simpl; [constructor|].
  apply NoDup_insert_desc; [|assumption].
  now rewrite In_order_by_published_desc.
Qed.

Lemma where_less_than_6_spec wh days mj :
  holds (Query.where_less_than_6 wh days mj) = true
  <-> less_than_6_conditions wh days mj.
Proof.
  unfold Query.where_less_than_6, less_than_6_conditions, in_lookback_window.
  rewrite !holds_and, !andb_true_iff, !holds_eq_str_lit, holds_lt_Z,
    holds_ge_Z, holds_lt_Z, holds_not_torre_os.
  split.
  - intros (((((H1 & H2) & H3) & [x [Hx Hlo]]) & [y [Hy Hhi]]) & H6).
    repeat split; try assumption. exists x. repeat split; try assumption.
    rewrite Hx in Hy. now inversion Hy.
  - intros (H1 & H2 & H3 & H4 & [ts (Ht & Hlo & Hhi)]).
    repeat split; try assumption; now exists ts.
Qed.

Lemma where_new_ts_posting_spec wh days mj :
  holds (Query.where_new_ts_posting wh days mj) = true
  <-> new_ts_posting_conditions wh days mj.
Proof.
  unfold Query.where_new_ts_posting, new_ts_posting_conditions, in_lookback_window.
  rewrite !holds_and, !andb_true_iff, !holds_eq_str_lit, holds_eq_Z,
    holds_ge_Z, holds_lt_Z, holds_not_torre_os.
  split.
  - intros ((((H1 & H2) & [x [Hx Hlo]]) & [y [Hy Hhi]]) & H6).
    repeat split; try assumption. exists x. repeat split; try assumption.
    rewrite Hx in Hy. now inversion Hy.
  - intros (H1 & H2 & H4 & [ts (Ht & Hlo & Hhi)]).
    repeat split; try assumption; now exists ts.
Qed.

(** The rows of the two queries without a derived table. *)
Lemma In_new_ts_posting days wh r :
  In r (Query.new_ts_posting days wh)
  <-> exists mj mg,
      In mj (mart_jobs wh) /\ In mg (mart_genomes wh) /\ joined mj mg
      /\ new_ts_posting_conditions wh days mj
      /\ r = Query.select mj mg (mj_review mj).
Proof.
  unfold Query.new_ts_posting. rewrite In_distinct_ordered, in_map_iff. split.
  - intros [[mj mg] [Hr Hin]]. apply filter_In in Hin as [Hin Hw].
    apply In_jobs_join_genomes in Hin as (Hj & Hg & Hon).
    apply where_new_ts_posting_spec in Hw.
    exists mj, mg. simpl in *. auto 7.
  - intros (mj & mg & Hj & Hg & Hon & Hc & ->).
    exists (mj, mg). split; [reflexivity|].
    apply filter_In. split.
    + apply In_jobs_join_genomes. auto.
    + now apply where_new_ts_posting_spec.
Qed.

Lemma In_less_than_6 days wh r :
  In r (Query.less_than_6 days wh)
  <-> exists mj mg,
      In mj (mart_jobs wh) /\ In mg (mart_genomes wh) /\ joined mj mg
      /\ less_than_6_conditions wh days mj
      /\ r = Query.select mj mg (mj_valuable_appls mj).
Proof.
  unfold Query.less_than_6. rewrite In_distinct_ordered, in_map_iff. split.
  - intros [[mj mg] [Hr Hin]]. apply filter_In in Hin as [Hin Hw].
    apply In_jobs_join_genomes in Hin as (Hj & Hg & Hon).
    apply where_less_than_6_spec in Hw.
    exists mj, mg. simpl in *. auto 7.
  - intros (mj & mg & Hj & Hg & Hon & Hc & ->).
    exists (mj, mg). split; [reflexivity|].
    apply filter_In. split.
    + apply In_jobs_join_genomes. auto.
    + now apply where_less_than_6_spec.
Qed.

(* ================================================================== *)
(** ** The derived table of the no-activity query *)

Lemma same_group_spec k ma :
  Query.same_group k ma = true <-> ma_opportunity_id ma = k.
Proof.
  unfold Query.same_group. destruct (opt_dec Z.eq_dec k (ma_opportunity_id ma));
    split; congruence.
Qed.

Lemma agg_max_none {A} (g : A -> Z) l :
  agg_max (map (fun a => Some (g a)) l) = None <-> l = [].
Proof.
  destruct l as [|a t]; simpl; [tauto|].
  destruct (agg_max _); split; discriminate.
Qed.

Lemma agg_max_some {A} (g : A -> Z) l t :
  agg_max (map (fun a => Some (g a)) l) = Some t ->
  (forall a, In a l -> g a <= t) /\ (exists a, In a l /\ g a = t).
Proof.
  revert t; induction l as [|a l IH]; simpl; intros t H; [discriminate|].
  destruct (agg_max (map (fun a => Some (g a)) l)) as [m|] eqn:Hm.
  - inversion H; subst. destruct (IH m eq_refl) as [Hub [b [Hb Hgb]]]. split.
    + intros x [-> | Hx]; [lia | specialize (Hub x Hx); lia].
    + destruct (Z.max_spec (g a) m) as [[_ ->] | [_ ->]].
      * exists b. auto.
      * exists a. auto.
  - inversion H; subst. apply agg_max_none in Hm. subst l. split.
    + intros x [-> | []]. lia.
    + exists a. auto.
Qed.

Lemma filter_key_absent id (keys : list (option Z)) :
  ~ In (Some id) keys ->
  filter (fun k => holds (eq_Z (Some id) k)) keys = [].
Proof.
  induction keys as [|k t IH]; intros H; [reflexivity|].
  cbn [filter]. simpl in H.
  assert (Hf : holds (eq_Z (Some id) k) = false).
  { destruct (holds (eq_Z (Some id) k)) eqn:E; [|reflexivity].
    apply holds_eq_Z in E as [z [Hz Hk]]. inversion Hz; subst. tauto. }
  rewrite Hf. apply IH. tauto.
Qed.

Lemma filter_key_NoDup id (keys : list (option Z)) :
  NoDup keys ->
  filter (fun k => holds (eq_Z (Some id) k)) keys
  = if in_dec (opt_dec Z.eq_dec) (Some id) keys then [Some id] else [].
Proof.
  intros Hnd. destruct (in_dec _ _ keys) as [Hin|Hnin];
    [|now apply filter_key_absent].
  induction Hnd as [|k t Hk Ht IH]; [destruct Hin|].
  cbn [filter]. destruct Hin as [->|Hin].
  - assert (Hf : holds (eq_Z (Some id) (Some id)) = true)
      by (apply holds_eq_Z; now exists id).
    rewrite Hf. now rewrite filter_key_absent.
  - assert (Hf : holds (eq_Z (Some id) k) = false).
    { destruct (holds (eq_Z (Some id) k)) eqn:E; [|reflexivity].
      apply holds_eq_Z in E as [z [Hz Hk']]. inversion Hz; subst. contradiction. }
    rewrite Hf. now apply IH.
Qed.

Lemma filter_map_swap {A B} (f : A -> B) (p : B -> bool) l :
  filter p (map f l) = map f (filter (fun a => p (f a)) l).
Proof.
  induction l as [|a t IH]; simpl; [reflexivity|].
  destruct (p (f a)); simpl; now rewrite IH.
Qed.

(** The row of [activity] that the ON clause matches with an opportunity. *)
Lemma activity_matches apps oid :
  filter (fun a => holds (eq_Z oid (fst a))) (Query.activity apps)
  = match oid with
    | Some id =>
        if in_dec (opt_dec Z.eq_dec) (Some id) (map ma_opportunity_id apps)
        then [(Some id, last_activity apps (Some id))]
        else []
    | None => []
    end.
Proof.
  unfold Query.activity. rewrite filter_map_swap. cbn [fst].
  destruct oid as [id|].
  - rewrite (filter_key_NoDup id) by apply NoDup_nodup.
    destruct (in_dec _ (Some id) (nodup _ _)) as [Hin|Hnin];
      destruct (in_dec _ (Some id) (map _ apps)) as [Hin'|Hnin'];
      try reflexivity.
    + apply nodup_In in Hin. contradiction.
    + elim Hnin. now apply nodup_In.
  - replace (filter _ _) with (@nil (option Z)); [reflexivity|].
    symmetry. induction (nodup _ _) as [|k t IH]; [reflexivity|]. simpl.
    exact IH.
Qed.

Lemma last_activity_no_rows apps id :
  ~ In (Some id) (map ma_opportunity_id apps) ->
  last_activity apps (Some id) = None.
Proof.
  intros H. unfold last_activity. apply agg_max_none.
  destruct (filter _ apps) as [|ma t] eqn:Hf; [reflexivity|].
  assert (Hin : In ma (filter (Query.same_group (Some id)) apps))
    by (rewrite Hf; now left).
  apply filter_In in Hin as [Hin Hk]. apply same_group_spec in Hk.
  elim H. rewrite <- Hk. now apply in_map.
Qed.

(** The left join gives every posting-profile pair exactly one row, which
    carries the last activity of the posting. *)
Lemma left_join_activity_spec wh :
  Query.left_join_activity wh
  = map (fun p => (p, last_activity (mart_applications wh)
                        (mj_opportunity_id (fst p))))
      (Query.jobs_join_genomes wh).
Proof.
  unfold Query.left_join_activity.
  induction (Query.jobs_join_genomes wh) as [|p t IH]; [reflexivity|].
  cbn [flat_map]. rewrite IH, activity_matches. cbn [map].
  destruct (mj_opportunity_id (fst p)) as [id|]; [|reflexivity].
  destruct (in_dec _ _ _) as [Hin|Hnin]; [reflexivity|].
  now rewrite last_activity_no_rows.
Qed.

(** What [last_activity] is: NULL exactly without rows, and otherwise an
    event time of some row that no event time of any row exceeds. *)
Lemma last_activity_spec apps id :
  (last_activity apps (Some id) = None
   <-> forall ma, In ma apps -> ma_opportunity_id ma <> Some id)
  /\ (forall t, last_activity apps (Some id) = Some t ->
        (forall ma, In ma apps -> ma_opportunity_id ma = Some id ->
           coalesce (ma_disqualified_date ma) epoch <= t
           /\ coalesce (ma_mm_date ma) epoch <= t)
        /\ (exists ma, In ma apps /\ ma_opportunity_id ma = Some id
              /\ t = Z.max (coalesce (ma_disqualified_date ma) epoch)
                       (coalesce (ma_mm_date ma) epoch))).
Proof.
  unfold last_activity. split.
  - rewrite agg_max_none. split.
    + intros Hf ma Hin Hk.
      assert (H : In ma (filter (Query.same_group (Some id)) apps)).
      { apply filter_In. split; [assumption | now apply same_group_spec]. }
      rewrite Hf in H. destruct H.
    + intros H. destruct (filter _ apps) as [|ma t] eqn:Hf; [reflexivity|].
      assert (Hin : In ma (filter (Query.same_group (Some id)) apps))
        by (rewrite Hf; now left).
      apply filter_In in Hin as [Hin Hk]. apply same_group_spec in Hk.
      elim (H ma Hin Hk).
  - intros t Ht. apply agg_max_some in Ht as [Hub [ma [Hin Heq]]]. split.
    + intros x Hx Hk.
      assert (H : In x (filter (Query.same_group (Some id)) apps)).
      { apply filter_In. split; [assumption | now apply same_group_spec]. }
      specialize (Hub x H). unfold Query.greatest_event in Hub. lia.
    + apply filter_In in Hin as [Hin Hk]. apply same_group_spec in Hk.
      exists ma. unfold Query.greatest_event in Heq. auto.
Qed.

Lemma where_no_activity_spec wh inactive_days lookback_days mj :
  holds (Query.where_no_activity wh inactive_days lookback_days mj
           (last_activity (mart_applications wh) (mj_opportunity_id mj))) = true
  <-> no_activity_conditions wh inactive_days lookback_days mj.
Proof.
  unfold Query.where_no_activity, no_activity_conditions.
  rewrite !holds_and, holds_or, !andb_true_iff, orb_true_iff,
    !holds_eq_str_lit, holds_ge_Z, holds_lt_Z, holds_not_torre_os, holds_is_null.
  tauto.
Qed.

Lemma In_no_activity inactive_days lookback_days wh r :
  In r (Query.no_activity inactive_days lookback_days wh)
  <-> exists mj mg,
      In mj (mart_jobs wh) /\ In mg (mart_genomes wh) /\ joined mj mg
      /\ no_activity_conditions wh inactive_days lookback_days mj
      /\ r = Query.select mj mg tt.
Proof.
  unfold Query.no_activity.
  rewrite In_distinct_ordered, in_map_iff, left_join_activity_spec. split.
  - intros [[[mj mg] la] [Hr Hin]]. apply filter_In in Hin as [Hin Hw].
    apply in_map_iff in Hin as [[mj' mg'] [Heq Hin]].
    inversion Heq; subst; clear Heq. cbn [fst snd] in *.
    apply In_jobs_join_genomes in Hin as (Hj & Hg & Hon).
    apply where_no_activity_spec in Hw.
    exists mj, mg. auto 7.
  - intros (mj & mg & Hj & Hg & Hon & Hc & ->).
    exists ((mj, mg), last_activity (mart_applications wh) (mj_opportunity_id mj)).
    split; [reflexivity|].
    apply filter_In. split.
    + apply in_map_iff. exists (mj, mg). split; [reflexivity|].
      apply In_jobs_join_genomes. auto.
    + cbn [fst snd]. now apply where_no_activity_spec.
Qed.

(* ================================================================== *)
(** ** The less-than-6 flag *)

(** C4 (as amended).  When the query runs, it keeps a posting paired with
    a poster profile exactly when the two are joined and the posting has
    review approved, status open, a valuable applicant count below 6, a
    business line other than torre_os or none, and a publish date in the
    lookback window; the records listed by less-than-6 are exactly the
    shaped rows of the pairs kept; a count of 5 meets the condition, a count
    of 6 does not, and no listed record has one of 6 or more. *)
Theorem less_than_6_lists_joined_qualifying_postings :
  forall w days,
    query_failure w = None ->
    (forall mj mg,
        In (mj, mg)
          (filter (fun p => holds (Query.where_less_than_6 (warehouse w) days
                                     (fst p)))
             (Query.jobs_join_genomes (warehouse w)))
        <-> In mj (mart_jobs (warehouse w)) /\ In mg (mart_genomes (warehouse w))
            /\ joined mj mg
            /\ less_than_6_conditions (warehouse w) days mj)
    /\ (forall rec,
        In rec (listed (get_less_than_6 days w))
        <-> exists mj mg,
          In mj (mart_jobs (warehouse w)) /\ In mg (mart_genomes (warehouse w))
          /\ joined mj mg
          /\ less_than_6_conditions (warehouse w) days mj
          /\ rec = shape "less_than_6"
                     (Query.select mj mg (mj_valuable_appls mj)))
    /\ (forall mj,
           mj_review mj = Some "approved" -> mj_status mj = Some "open" ->
           mj_business_line mj <> Some "torre_os" ->
           in_lookback_window (warehouse w) days (mj_published_date mj) ->
           (mj_valuable_appls mj = Some 5 ->
            less_than_6_conditions (warehouse w) days mj)
           /\ (mj_valuable_appls mj = Some 6 ->
               ~ less_than_6_conditions (warehouse w) days mj))
    /\ (forall rec,
           In rec (listed (get_less_than_6 days w)) ->
           exists n, rec_extra rec = Some n /\ n < 6).
Proof.
  intros w days Hok. rewrite (listed_less_than_6 days w Hok).
  assert (Hiff : forall rec,
             In rec (map (shape "less_than_6")
                       (Query.less_than_6 days (warehouse w)))
             <-> exists mj mg,
               In mj (mart_jobs (warehouse w)) /\ In mg (mart_genomes (warehouse w))
               /\ joined mj mg
               /\ less_than_6_conditions (warehouse w) days mj
               /\ rec = shape "less_than_6"
                          (Query.select mj mg (mj_valuable_appls mj))).
  { intros rec. rewrite in_map_iff. split.
    - intros [r [<- Hr]]. apply In_less_than_6 in Hr
        as (mj & mg & Hj & Hg & Hon & Hc & ->).
      exists mj, mg. auto 7.
    - intros (mj & mg & Hj & Hg & Hon & Hc & ->).
      eexists. split; [reflexivity|]. apply In_less_than_6.
      exists mj, mg. auto 7. }
  split; [|split; [exact Hiff | split]].
  - intros mj mg. rewrite filter_In, In_jobs_join_genomes. cbn [fst].
    rewrite where_less_than_6_spec. tauto.
  - intros mj Hr Hs Hb Hw. split.
    + intros H5. repeat split; try assumption. exists 5. split; [assumption | lia].
    + intros H6 (_ & _ & [n [Hn Hlt]] & _). rewrite H6 in Hn. inversion Hn. lia.
  - intros rec Hin. apply Hiff in Hin as (mj & mg & _ & _ & _ & Hc & ->).
    destruct Hc as (_ & _ & Hn & _). exact Hn.
Qed.

Lemma less_than_6_lists_joined_qualifying_postings_witness :
  query_failure world_demo = None
  /\ In (shape "less_than_6" (Query.select five ana (Some 5)))
       (listed (get_less_than_6 30 world_demo))
  /\ ~ In (shape "less_than_6" (Query.select six ana (Some 6)))
         (listed (get_less_than_6 30 world_demo)).
Proof.
  destruct (less_than_6_lists_joined_qualifying_postings world_demo 30 eq_refl)
    as (_ & Hiff & _ & Hlt).
  split; [reflexivity | split].
  - apply Hiff. exists five, ana.
    split; [now left | split; [now left | split]].
    + now exists "gg-ana".
    + split; [|reflexivity].
      repeat split; try reflexivity; try discriminate.
      * exists 5. split; [reflexivity | lia].
      * exists recent. repeat split; vm_compute; congruence.
  - intros Hin. destruct (Hlt _ Hin) as [n [Hn Hlt6]].
    cbn in Hn. inversion Hn. lia.
Defined.

(** C4 (as stated) fails: a posting that meets every listed condition is
    not listed when no poster profile joins it. *)
Lemma less_than_6_skips_posting_without_profile :
  query_failure world_orphan = None
  /\ In five (mart_jobs (warehouse world_orphan))
  /\ less_than_6_conditions (warehouse world_orphan) 30 five
  /\ (exists p, fst (get_less_than_6 30 world_orphan) = inr (Success p)
                /\ data p = [] /\ count p = 0%nat)
  /\ listed (get_less_than_6 30 world_orphan) = [].
Proof.
  split; [reflexivity | split; [now left | split; [|split]]].
  - repeat split; try reflexivity; try discriminate.
    + exists 5. split; [reflexivity | lia].
    + exists recent. repeat split; vm_compute; congruence.
  - eexists. split; [reflexivity | split; reflexivity].
  - reflexivity.
Qed.

(* ================================================================== *)
(** ** The no-activity flag *)

Lemma last_activity_of_silent_posting wh mj :
  no_activity_rows wh mj ->
  last_activity (mart_applications wh) (mj_opportunity_id mj) = None.
Proof.
  intros H. destruct (mj_opportunity_id mj) as [id|] eqn:E; [|reflexivity].
  apply last_activity_spec. intros ma Hin. now apply (H ma id).
Qed.

(** C3 (as amended).  When the query runs, a posting without activity rows
    that is joined to a poster profile and has review approved, status
    open, a business line other than torre_os or none, and a publish date
    in the lookback window is listed by no-activity.  The value the query
    derives for a posting is NULL for it; for every posting it is the one
    the left join attaches, the greatest over the rows of the opportunity of
    the later of the two event timestamps, a missing one counting as the
    epoch. *)
Theorem no_activity_lists_joined_silent_posting :
  forall w inactive_days lookback_days mj mg,
    query_failure w = None ->
    In mj (mart_jobs (warehouse w)) ->
    In mg (mart_genomes (warehouse w)) ->
    joined mj mg ->
    no_activity_rows (warehouse w) mj ->
    mj_review mj = Some "approved" ->
    mj_status mj = Some "open" ->
    mj_business_line mj <> Some "torre_os" ->
    in_lookback_window (warehouse w) lookback_days (mj_published_date mj) ->
    In (shape "no_activity" (Query.select mj mg tt))
      (listed (get_no_activity inactive_days lookback_days w))
    /\ last_activity (mart_applications (warehouse w)) (mj_opportunity_id mj)
       = None
    /\ Query.left_join_activity (warehouse w)
       = map (fun p => (p, last_activity (mart_applications (warehouse w))
                             (mj_opportunity_id (fst p))))
           (Query.jobs_join_genomes (warehouse w))
    /\ (forall id t,
           last_activity (mart_applications (warehouse w)) (Some id) = Some t ->
           (forall ma,
               In ma (mart_applications (warehouse w)) ->
               ma_opportunity_id ma = Some id ->
               coalesce (ma_disqualified_date ma) epoch <= t
               /\ coalesce (ma_mm_date ma) epoch <= t)
           /\ (exists ma,
                  In ma (mart_applications (warehouse w))
                  /\ ma_opportunity_id ma = Some id
                  /\ t = Z.max (coalesce (ma_disqualified_date ma) epoch)
                           (coalesce (ma_mm_date ma) epoch))).
Proof.
  intros w inactive_days lookback_days mj mg Hok Hj Hg Hon Hsilent Hr Hs Hb Hw.
  pose proof (last_activity_of_silent_posting _ _ Hsilent) as Hla.
  split; [|split; [exact Hla | split]].
  - rewrite (listed_no_activity _ _ w Hok). apply in_map.
    apply In_no_activity. exists mj, mg.
    repeat split; try assumption.
    + destruct Hw as [ts (Ht & Hlo & _)]. now exists ts.
    + now left.
  - apply left_join_activity_spec.
  - intros id t Ht. now apply last_activity_spec.
Qed.

Lemma no_activity_lists_joined_silent_posting_witness :
  query_failure world_demo = None
  /\ In (shape "no_activity" (Query.select five ana tt))
       (listed (get_no_activity 7 30 world_demo)).
Proof.
  split; [reflexivity|].
  refine (proj1 (no_activity_lists_joined_silent_posting world_demo 7 30 five ana
                   eq_refl _ _ _ _ eq_refl eq_refl _ _)).
  - now left.
  - now left.
  - now exists "gg-ana".
  - intros ma id [].
  - discriminate.
  - exists recent. repeat split; vm_compute; congruence.
Defined.

(** C3 (as stated) fails: a posting without activity rows that meets every
    listed condition is not listed when no poster profile joins it. *)
Lemma no_activity_skips_posting_without_profile :
  query_failure world_orphan = None
  /\ In five (mart_jobs (warehouse world_orphan))
  /\ no_activity_rows (warehouse world_orphan) five
  /\ mj_review five = Some "approved"
  /\ mj_status five = Some "open"
  /\ mj_business_line five <> Some "torre_os"
  /\ in_lookback_window (warehouse world_orphan) 30 (mj_published_date five)
  /\ (exists p, fst (get_no_activity 7 30 world_orphan) = inr (Success p)
                /\ data p = [] /\ count p = 0%nat)
  /\ listed (get_no_activity 7 30 world_orphan) = [].
Proof.
  split; [reflexivity | split; [now left | split; [intros ma id []|]]].
  repeat split; try reflexivity; try discriminate.
  - exists recent. repeat split; vm_compute; congruence.
  - eexists. split; [reflexivity | split; reflexivity].
Qed.

(* ================================================================== *)
(** ** The lookback window *)

Lemma shape_published_date {X} tag (r : Row X) :
  published_date (shape tag r) = r_published_date r.
Proof. reflexivity. Qed.

(** The two queries that test both ends keep to the window ... *)
Lemma new_ts_posting_within_window w days rec :
  In rec (listed (get_new_ts_posting days w)) ->
  in_lookback_window (warehouse w) days (published_date rec).
Proof.
  rewrite run_new_ts_posting. unfold listed. cbn [fst].
  destruct (query_failure w); [intros []|]. cbn [get_data data].
  intros Hin. apply in_map_iff in Hin as [r [<- Hr]].
  apply In_new_ts_posting in Hr as (mj & mg & _ & _ & _ & Hc & ->).
  destruct Hc as (_ & _ & _ & Hw). exact Hw.
Qed.

Lemma less_than_6_within_window w days rec :
  In rec (listed (get_less_than_6 days w)) ->
  in_lookback_window (warehouse w) days (published_date rec).
Proof.
  rewrite run_less_than_6. unfold listed. cbn [fst].
  destruct (query_failure w); [intros []|]. cbn [get_data data].
  intros Hin. apply in_map_iff in Hin as [r [<- Hr]].
  apply In_less_than_6 in Hr as (mj & mg & _ & _ & _ & Hc & ->).
  destruct Hc as (_ & _ & _ & _ & Hw). exact Hw.
Qed.

(** ... and the no-activity query to its lower end only. *)
Lemma no_activity_after_window_start w inactive_days lookback_days rec :
  In rec (listed (get_no_activity inactive_days lookback_days w)) ->
  exists ts, published_date rec = Some ts
             /\ current_date (warehouse w) - interval_days lookback_days <= ts.
Proof.
  rewrite run_no_activity. unfold listed. cbn [fst].
  destruct (query_failure w); [intros []|]. cbn [get_data data].
  intros Hin. apply in_map_iff in Hin as [r [<- Hr]].
  apply In_no_activity in Hr as (mj & mg & _ & _ & _ & Hc & ->).
  destruct Hc as (_ & _ & _ & Hw & _). exact Hw.
Qed.

(** C5, at the input where the code departs from it.  A posting dated
    tomorrow at midnight lies outside the window [today - 30 days, today +
    1 day); new-ts-posting and less-than-6 leave it out, no-activity, whose
    query has no upper bound on the publish date, lists it. *)
Theorem no_activity_lists_posting_dated_tomorrow :
  query_failure world_future = None
  /\ mart_jobs (warehouse world_future) = [tomorrow]
  /\ mj_published_date tomorrow
     = Some (current_date (warehouse world_future) + interval_days 1)
  /\ ~ in_lookback_window (warehouse world_future) 30 (mj_published_date tomorrow)
  /\ listed (get_new_ts_posting 30 world_future) = []
  /\ listed (get_less_than_6 30 world_future) = []
  /\ listed (get_no_activity 7 30 world_future)
     = [shape "no_activity" (Query.select tomorrow ana tt)].
Proof.
  repeat split.
  intros [ts (Ht & _ & Hhi)]. inversion Ht; subst ts.
  vm_compute in Hhi. discriminate Hhi.
Qed.

(* ================================================================== *)
(** ** Result shaping *)

Lemma shape_shaped_from {X} tag (r : Row X) : shaped_from tag r (shape tag r).
Proof.
  unfold shaped_from, shape; cbn. repeat split.
  - now intros ->.
  - now intros ->.
  - intros s ->. now destruct s.
  - intros s ->. now destruct s.
Qed.

Lemma Forall_map_shaped {X} tag (rows : list (Row X)) :
  Forall (fun rec => exists r, In r rows /\ shaped_from tag r rec)
    (map (shape tag) rows).
Proof.
  apply Forall_forall. intros rec Hin. apply in_map_iff in Hin as [r [<- Hr]].
  exists r. split; [assumption | apply shape_shaped_from].
Qed.

Lemma Forall2_map_shaped {X} tag (rows : list (Row X)) :
  Forall2 (shaped_from tag) rows (map (shape tag) rows).
Proof.
  induction rows as [|r t IH]; simpl; constructor;
    [apply shape_shaped_from | exact IH].
Qed.

(** C7.  When the query of a flag endpoint runs, the endpoint lists one
    record for every row the query matched, in the order of the rows, and
    the record of a row has a missing title replaced by "Untitled Position"
    and a missing organization by "Company"; its industry is the classifier
    applied to the title and organization of the record, so to the defaulted
    values, its link is https://torre.ai/post/ followed by the hash id, and
    its other keys are the columns of the row. *)
Theorem listed_records_use_defaults :
  forall w days inactive_days lookback_days,
    query_failure w = None ->
    Forall2 (shaped_from "new_ts_posting")
      (Query.new_ts_posting days (warehouse w))
      (listed (get_new_ts_posting days w))
    /\ Forall2 (shaped_from "less_than_6")
         (Query.less_than_6 days (warehouse w))
         (listed (get_less_than_6 days w))
    /\ Forall2 (shaped_from "no_activity")
         (Query.no_activity inactive_days lookback_days (warehouse w))
         (listed (get_no_activity inactive_days lookback_days w)).
Proof.
  intros w days inactive_days lookback_days Hok.
  rewrite (listed_new_ts_posting _ _ Hok), (listed_less_than_6 _ _ Hok),
    (listed_no_activity _ _ _ Hok).
  split; [|split]; apply Forall2_map_shaped.
Qed.

Lemma listed_records_use_defaults_witness :
  query_failure (world_of [untitled] [ana] []) = None
  /\ Query.new_ts_posting 7 (warehouse (world_of [untitled] [ana] []))
     = [Query.select untitled ana (Some "approved")]
  /\ Forall2 (shaped_from "new_ts_posting")
       [Query.select untitled ana (Some "approved")]
       (listed (get_new_ts_posting 7 (world_of [untitled] [ana] []))).
Proof.
  split; [reflexivity | split; [reflexivity|]].
  exact (proj1 (listed_records_use_defaults (world_of [untitled] [ana] [])
                  7 7 30 eq_refl)).
Defined.

Example untitled_posting_listed_with_defaults :
  listed (get_new_ts_posting 7 (world_of [untitled] [ana] []))
  = [{| ts_name := Some "Ana"; ts_email := Some "ana@acme.co";
        vacancy_name := "Untitled Position";
        vacancy_link := "https://torre.ai/post/hu";
        locale := None; published_date := Some recent;
        company_name := "Company"; poster_gg_id := Some "gg-ana";
        rec_extra := Some "approved";
        industry := "general"; rec_flag := "new_ts_posting" |}].
Proof. reflexivity. Qed.

(* ================================================================== *)
(** ** The client query *)

Lemma In_genomes_left_join_jobs wh mg o :
  In (mg, o) (Query.genomes_left_join_jobs wh)
  <-> In mg (mart_genomes wh)
      /\ match o with
         | Some mj => In mj (postings_of wh (mg_gg_id mg))
         | None => postings_of wh (mg_gg_id mg) = []
         end.
Proof.
  unfold Query.genomes_left_join_jobs, postings_of. rewrite in_flat_map. split.
  - intros [g [Hg Hin]].
    destruct (filter _ (mart_jobs wh)) as [|mj0 t] eqn:Hf.
    + destruct Hin as [Heq | []]. inversion Heq; subst. now rewrite Hf.
    + apply in_map_iff in Hin as [mj [Heq Hmj]]. inversion Heq; subst.
      now rewrite Hf.
  - intros [Hg Ho]. exists mg. split; [assumption|].
    destruct o as [mj|].
    + destruct (filter _ (mart_jobs wh)) as [|mj0 t]; [destruct Ho|].
      apply in_map_iff. exists mj. split; [reflexivity | exact Ho].
    + rewrite Ho. now left.
Qed.

Lemma In_non_null {A} (x : A) l : In x (non_null l) <-> In (Some x) l.
Proof.
  induction l as [|[y|] t IH]; simpl.
  - tauto.
  - rewrite IH. split; intros [H | H]; auto; left; congruence.
  - rewrite IH. split; [auto | intros [H | H]; [discriminate | assumption]].
Qed.

(** [COUNT(DISTINCT ...)] depends only on which non-NULL values occur. *)
Lemma count_distinct_ext l1 l2 :
  (forall x, In (Some x) l1 <-> In (Some x) l2) ->
  count_distinct l1 = count_distinct l2.
Proof.
  intros H. unfold count_distinct. apply Nat.le_antisymm;
    apply NoDup_incl_length; try apply NoDup_nodup;
    intros x Hx; apply nodup_In; apply nodup_In in Hx;
    apply In_non_null; apply In_non_null in Hx; now apply H.
Qed.

Lemma agg_min_spec l :
  match agg_min l with
  | None => forall x, ~ In (Some x) l
  | Some m => In (Some m) l /\ forall x, In (Some x) l -> m <= x
  end.
Proof.
  induction l as [|[y|] t IH]; simpl.
  - intros x [].
  - destruct (agg_min t) as [m|].
    + destruct IH as [Hin Hlb]. split.
      * destruct (Z.min_spec y m) as [[_ ->] | [_ ->]]; auto.
      * intros x [Hx | Hx]; [inversion Hx; lia | specialize (Hlb x Hx); lia].
    + split; [now left|].
      intros x [Hx | Hx]; [inversion Hx; lia | elim (IH x Hx)].
  - destruct (agg_min t) as [m|].
    + destruct IH as [Hin Hlb]. split; [now right|].
      intros x [Hx | Hx]; [discriminate | now apply Hlb].
    + intros x [Hx | Hx]; [discriminate | now apply (IH x)].
Qed.

Lemma agg_max_spec l :
  match agg_max l with
  | None => forall x, ~ In (Some x) l
  | Some m => In (Some m) l /\ forall x, In (Some x) l -> x <= m
  end.
Proof.
  induction l as [|[y|] t IH]; simpl.
  - intros x [].
  - destruct (agg_max t) as [m|].
    + destruct IH as [Hin Hub]. split.
      * destruct (Z.max_spec y m) as [[_ ->] | [_ ->]]; auto.
      * intros x [Hx | Hx]; [inversion Hx; lia | specialize (Hub x Hx); lia].
    + split; [now left|].
      intros x [Hx | Hx]; [inversion Hx; lia | elim (IH x Hx)].
  - destruct (agg_max t) as [m|].
    + destruct IH as [Hin Hub]. split; [now right|].
      intros x [Hx | Hx]; [discriminate | now apply Hub].
    + intros x [Hx | Hx]; [discriminate | now apply (IH x)].
Qed.

Lemma agg_min_ext l1 l2 :
  (forall x, In (Some x) l1 <-> In (Some x) l2) -> agg_min l1 = agg_min l2.
Proof.
  intros H. pose proof (agg_min_spec l1) as H1. pose proof (agg_min_spec l2) as H2.
  destruct (agg_min l1) as [m1|], (agg_min l2) as [m2|].
  - destruct H1 as [I1 L1], H2 as [I2 L2]. f_equal.
    apply H in I1. apply H in I2. specialize (L1 _ I2). specialize (L2 _ I1). lia.
  - destruct H1 as [I1 _]. apply H in I1. elim (H2 _ I1).
  - destruct H2 as [I2 _]. apply H in I2. elim (H1 _ I2).
  - reflexivity.
Qed.

Lemma agg_max_ext l1 l2 :
  (forall x, In (Some x) l1 <-> In (Some x) l2) -> agg_max l1 = agg_max l2.
Proof.
  intros H. pose proof (agg_max_spec l1) as H1. pose proof (agg_max_spec l2) as H2.
  destruct (agg_max l1) as [m1|], (agg_max l2) as [m2|].
  - destruct H1 as [I1 L1], H2 as [I2 L2]. f_equal.
    apply H in I1. apply H in I2. specialize (L1 _ I2). specialize (L2 _ I1). lia.
  - destruct H1 as [I1 _]. apply H in I1. elim (H2 _ I1).
  - destruct H2 as [I2 _]. apply H in I2. elim (H1 _ I2).
  - reflexivity.
Qed.

Lemma In_client_rows email wh mg o :
  In (mg, o) (client_rows email wh)
  <-> In (mg, o) (Query.genomes_left_join_jobs wh) /\ mg_email mg = Some email.
Proof.
  unfold client_rows. rewrite filter_In. cbn [fst].
  now rewrite holds_eq_str_lit.
Qed.

(** In a group, a column of [mj] takes the values it takes on the postings
    of the poster of the group. *)
Lemma group_column_values {A} (f : Job -> option A) email wh k x :
  In k (map Query.group_key (client_rows email wh)) ->
  In (Some x)
    (map (Query.mj_col f) (filter (Query.in_group k) (client_rows email wh)))
  <-> In (Some x) (map f (postings_of wh (snd k))).
Proof.
  intros Hk. rewrite !in_map_iff. split.
  - intros [[mg o] [Hx Hin]]. apply filter_In in Hin as [Hin Hg].
    unfold Query.in_group in Hg. destruct (key3_dec k _) as [->|]; [|discriminate].
    apply In_client_rows in Hin as [Hin _].
    apply In_genomes_left_join_jobs in Hin as [_ Ho].
    unfold Query.mj_col in Hx. cbn [snd] in Hx.
    destruct o as [mj|]; [|discriminate]. exists mj. now split.
  - intros [mj [Hx Hmj]]. apply in_map_iff in Hk as [[mg o] [Hkey Hin]].
    apply In_client_rows in Hin as [Hin Hmail].
    apply In_genomes_left_join_jobs in Hin as [Hg _].
    assert (Hgg : mg_gg_id mg = snd k) by (rewrite <- Hkey; reflexivity).
    exists (mg, Some mj). split; [exact Hx|].
    apply filter_In. split.
    + apply In_client_rows. split; [|assumption].
      apply In_genomes_left_join_jobs. split; [assumption|]. now rewrite Hgg.
    + unfold Query.in_group. rewrite <- Hkey.
      destruct (key3_dec _ _) as [|Hne]; [reflexivity | now elim Hne].
Qed.

(** The rows of the client query: one per profile with the given e-mail,
    with the counts and dates of the postings of that poster. *)
Lemma In_client email wh r :
  In r (Query.client email wh) ->
  c_email r = Some email
  /\ (exists mg, In mg (mart_genomes wh)
                 /\ mg_name mg = c_name r /\ mg_email mg = c_email r
                 /\ mg_gg_id mg = c_gg_id r)
  /\ c_total_jobs r
     = count_distinct (map mj_hash_id (postings_of wh (c_gg_id r)))
  /\ c_open_jobs r
     = count_distinct (map Query.open_hash_id (postings_of wh (c_gg_id r)))
  /\ c_first_job_date r
     = agg_min (map mj_published_date (postings_of wh (c_gg_id r)))
  /\ c_last_job_date r
     = agg_max (map mj_published_date (postings_of wh (c_gg_id r))).
Proof.
  unfold Query.client. fold (client_rows email wh).
  intros Hin. apply in_map_iff in Hin as [k [<- Hk]]. apply nodup_In in Hk.
  cbn [c_name c_email c_gg_id c_total_jobs c_open_jobs c_first_job_date
         c_last_job_date].
  pose proof Hk as Hk'. apply in_map_iff in Hk' as [[mg o] [Hkey Hrow]].
  apply In_client_rows in Hrow as [Hrow Hmail].
  apply In_genomes_left_join_jobs in Hrow as [Hg _].
  split; [rewrite <- Hkey; exact Hmail | split].
  - exists mg. rewrite <- Hkey. auto.
  - repeat split.
    + apply count_distinct_ext. intros x. now apply group_column_values.
    + apply count_distinct_ext. intros x. now apply group_column_values.
    + apply agg_min_ext. intros x. now apply group_column_values.
    + apply agg_max_ext. intros x. now apply group_column_values.
Qed.

(** No row comes back exactly when no profile has the e-mail. *)
Lemma client_empty email wh :
  Query.client email wh = []
  <-> forall mg, In mg (mart_genomes wh) -> mg_email mg <> Some email.
Proof.
  unfold Query.client. fold (client_rows email wh). split.
  - intros H mg Hg Hmail.
    assert (Hex : exists o, In (mg, o) (client_rows email wh)).
    { destruct (postings_of wh (mg_gg_id mg)) as [|mj t] eqn:Hp.
      - exists None. apply In_client_rows. split; [|assumption].
        apply In_genomes_left_join_jobs. now split.
      - exists (Some mj). apply In_client_rows. split; [|assumption].
        apply In_genomes_left_join_jobs. split; [assumption|].
        rewrite Hp. now left. }
    destruct Hex as [o Ho]. apply map_eq_nil in H.
    apply (in_map Query.group_key) in Ho.
    apply (nodup_In key3_dec) in Ho.
    rewrite H in Ho. destruct Ho.
  - intros H. destruct (client_rows email wh) as [|[mg o] t] eqn:Hrows;
      [reflexivity|].
    assert (Hin : In (mg, o) (client_rows email wh)) by (rewrite Hrows; now left).
    apply In_client_rows in Hin as [Hin Hmail].
    apply In_genomes_left_join_jobs in Hin as [Hg _].
    elim (H mg Hg Hmail).
Qed.

(* ================================================================== *)
(** ** The client endpoint *)

Lemma run_client_details email w :
  get_client_details email w
  = match query_failure w with
    | Some e => (inr (ClientFailure (str_exn e)), after_calls w)
    | None =>
        match Query.client_text email (warehouse w) with
        | [] => (inl not_found, after_calls w)
        | r :: _ =>
            (inr (ClientSuccess
                    {| cd_name := c_name r;
                       cd_email := c_email r;
                       cd_gg_id := c_gg_id r;
                       total_jobs_posted := c_total_jobs r;
                       open_jobs := c_open_jobs r;
                       first_job_date := c_first_job_date r;
                       last_job_date := c_last_job_date r |}),
             after_calls w)
        end
    end.
Proof.
  unfold get_client_details. rewrite run_guarded.
  destruct (query_failure w) as [e|] eqn:Hq.
  - destruct (query_failure_plain w e Hq) as [msg ->]. reflexivity.
  - destruct (Query.client_text email (warehouse w)); reflexivity.
Qed.

(** Every row of the client query is the summary of a profile with the
    e-mail ... *)
Lemma client_row_summarises email wh r :
  In r (Query.client email wh) ->
  exists mg, summarises wh email mg (client_data r).
Proof.
  intros Hr. apply In_client in Hr
    as (H1 & (mg & Hg & Hn & He & Hi) & H3 & H4 & H5 & H6).
  exists mg. unfold summarises, client_data; cbn.
  rewrite Hi, He. repeat split; auto.
Qed.

(** ... and every profile with the e-mail has its row. *)
Lemma client_has_row email wh mg :
  In mg (mart_genomes wh) -> mg_email mg = Some email ->
  exists r, In r (Query.client email wh)
            /\ c_name r = mg_name mg /\ c_email r = mg_email mg
            /\ c_gg_id r = mg_gg_id mg.
Proof.
  intros Hg Hmail.
  assert (Hex : exists o, In (mg, o) (client_rows email wh)).
  { destruct (postings_of wh (mg_gg_id mg)) as [|mj t] eqn:Hp.
    - exists None. apply In_client_rows. split; [|assumption].
      apply In_genomes_left_join_jobs. now split.
    - exists (Some mj). apply In_client_rows. split; [|assumption].
      apply In_genomes_left_join_jobs. split; [assumption|].
      rewrite Hp. now left. }
  destruct Hex as [o Ho].
  unfold Query.client. fold (client_rows email wh).
  eexists. split.
  - apply in_map_iff. exists (Query.group_key (mg, o)).
    split; [reflexivity|]. apply nodup_In. now apply in_map.
  - cbn. auto.
Qed.


Example client_three_postings_two_open :
  fst (get_client_details "ana@acme.co" world_three)
  = inr (ClientSuccess
           {| cd_name := Some "Ana";
              cd_email := Some "ana@acme.co";
              cd_gg_id := Some "gg-ana";
              total_jobs_posted := 3;
              open_jobs := 2;
              first_job_date := Some (interval_days 19990);
              last_job_date := Some (interval_days 19999) |})
  /\ fst (get_client_details "bob@acme.co" world_three) = inl not_found
  /\ fst (get_client_details "ana@acme.co"
            (set_pending [None; Some "timeout"] world_three))
     = inr (ClientFailure "timeout").
Proof. repeat split. Qed.

(** The aggregate endpoint when the second flag fails: the connection is
    made, the first query runs, the second raises, the third runs. *)
Example all_priorities_with_one_failure :
  exists body w',
    get_all_high_priority_flags 30
      (set_pending [None; None; Some "query cancelled"] world_demo)
    = (inr (AllSuccess body), w')
    /\ success (flags_new_ts_posting body) = true
    /\ flags_less_than_6 body = Failure "query cancelled"
    /\ success (flags_no_activity body) = true
    /\ total_clients_to_contact (summary body) = 2 + 0 + 2.
Proof. do 2 eexists. split; [reflexivity | repeat split]. Qed.

(* ================================================================== *)
(** * Further properties of the code *)

(** ** Lowercasing and the classifier *)

Lemma lower_char_idempotent c : lower_char (lower_char c) = lower_char c.
Proof.
  destruct c as [b0 b1 b2 b3 b4 b5 b6 b7].
  destruct b0, b1, b2, b3, b4, b5, b6, b7; reflexivity.
Qed.

Lemma lower_idempotent s : lower (lower s) = lower s.
Proof.
  induction s as [|c t IH]; simpl; [reflexivity|].
  now rewrite lower_char_idempotent, IH.
Qed.

Lemma lower_append a b : lower (a ++ b) = lower a ++ lower b.
Proof. induction a as [|c t IH]; simpl; [reflexivity | now rewrite IH]. Qed.

Lemma string_append_assoc (a b c : string) : (a ++ b) ++ c = a ++ (b ++ c).
Proof. induction a as [|x t IH]; simpl; [reflexivity | now rewrite IH]. Qed.

Lemma string_append_cancel (p a b : string) : p ++ a = p ++ b -> a = b.
Proof.
  induction p as [|x t IH]; simpl; intros H; [assumption|].
  injection H as H. now apply IH.
Qed.

Lemma contains_append_l word a b :
  contains word a = true -> contains word (a ++ b) = true.
Proof.
  rewrite !contains_spec. intros [pre [post ->]].
  exists pre, (post ++ b). now rewrite !string_append_assoc.
Qed.

Lemma contains_append_r word a b :
  contains word b = true -> contains word (a ++ b) = true.
Proof.
  rewrite !contains_spec. intros [pre [post ->]].
  exists (a ++ pre), post. now rewrite !string_append_assoc.
Qed.

(** A text that holds a word holds every part of the word. *)
Lemma contains_part part word text :
  contains part word = true -> contains word text = true ->
  contains part text = true.
Proof.
  rewrite !contains_spec. intros [p1 [q1 ->]] [p2 [q2 ->]].
  exists (p2 ++ p1), (q1 ++ q2). now rewrite !string_append_assoc.
Qed.

(** X1.  The classifier ignores case: two titles that agree once lowercased
    and two organizations that agree once lowercased are classified
    alike. *)
Theorem detect_industry_ignores_case :
  forall title title' organization organization',
    lower title = lower title' ->
    lower organization = lower organization' ->
    detect_industry title organization = detect_industry title' organization'.
Proof.
  intros t t' o o' Ht Ho. unfold detect_industry.
  rewrite !lower_append, Ht, Ho. reflexivity.
Qed.

Lemma detect_industry_ignores_case_witness :
  detect_industry "NURSE Manager" "St. Mary" = detect_industry "nurse manager" "st. mary".
Proof.
  apply (detect_industry_ignores_case "NURSE Manager" "nurse manager"
           "St. Mary" "st. mary"); reflexivity.
Defined.

(** X2.  The finance keyword "accountant" never decides: a text that holds
    it holds the sales keyword "account", which is tested first, so the
    result is technology or sales_marketing and never finance. *)
Theorem accountant_is_classified_before_finance :
  forall title organization,
    contains "accountant" (lower (title ++ " " ++ organization)) = true ->
    (detect_industry title organization = "technology"
     \/ detect_industry title organization = "sales_marketing")
    /\ detect_industry title organization <> "finance".
Proof.
  intros t o H.
  assert (Hacc : contains "account" (lower (t ++ " " ++ o)) = true)
    by (apply (contains_part "account" "accountant"); [reflexivity | assumption]).
  assert (Hs : any_in (lower (t ++ " " ++ o)) sales_marketing_keywords = true).
  { apply any_in_spec. exists "account". split; [simpl; tauto | assumption]. }
  unfold detect_industry. rewrite Hs.
  destruct (any_in _ technology_keywords); split; auto; discriminate.
Qed.

Lemma accountant_is_classified_before_finance_witness :
  detect_industry "Senior Accountant" "Ledger Ltd" = "sales_marketing".
Proof.
  destruct (accountant_is_classified_before_finance "Senior Accountant"
              "Ledger Ltd" eq_refl) as [[H | H] _]; [discriminate H | exact H].
Defined.

Lemma first_match_at_or_before table text cat kws :
  In (cat, kws) table -> any_in text kws = true ->
  exists pre post,
    map fst table = (pre ++ cat :: post)%list
    /\ In (first_match table text) (pre ++ [cat])%list.
Proof.
  induction table as [|[c k] t IH]; intros Hin Hhit; [destruct Hin|].
  simpl. destruct Hin as [Heq | Hin].
  - inversion Heq; subst. rewrite Hhit. exists [], (map fst t).
    split; [reflexivity | now left].
  - destruct (IH Hin Hhit) as (pre & post & Hsplit & Hres).
    exists (c :: pre), post. split; [simpl; now rewrite Hsplit|].
    destruct (any_in text k); [now left | now right].
Qed.

Lemma listed_keyword_is_tested cat ind kw :
  In (cat, ind) get_available_industries -> In kw (ind_keywords ind) ->
  exists kws, In (cat, kws) priority_table /\ In kw kws.
Proof.
  unfold get_available_industries. intros Hin Hkw.
  repeat (destruct Hin as [Hin | Hin];
          [inversion Hin; subst; clear Hin;
           match goal with
           | |- exists kws, In (?c, kws) _ /\ _ =>
               exists (classifier_keywords c)
           end;
           split; [cbn; tauto | cbn in Hkw |- *; tauto] |]).
  destruct Hin.
Qed.

(** X3.  The keywords listed by [GET /industries] bind the classifier:
    when a keyword listed for a category occurs in the lowercased title or
    in the lowercased organization, the classifier returns that category or
    one tested before it. *)
Theorem listed_keyword_bounds_category :
  forall cat ind kw title organization,
    In (cat, ind) get_available_industries ->
    In kw (ind_keywords ind) ->
    contains kw (lower title) = true \/ contains kw (lower organization) = true ->
    at_or_before cat (detect_industry title organization).
Proof.
  intros cat ind kw t o Hin Hkw Hocc.
  destruct (listed_keyword_is_tested _ _ _ Hin Hkw) as (kws & Htab & Hk).
  assert (Htext : contains kw (lower (t ++ " " ++ o)) = true).
  { rewrite !lower_append. destruct Hocc as [H | H].
    - now apply contains_append_l.
    - now apply contains_append_r, contains_append_r. }
  assert (Hany : any_in (lower (t ++ " " ++ o)) kws = true)
    by (apply any_in_spec; now exists kw).
  destruct (first_match_at_or_before _ _ _ _ Htab Hany) as (pre & post & Hs & Hr).
  exists pre, (post ++ ["general"])%list. split; [|exact Hr].
  change categories with (map fst priority_table ++ ["general"])%list.
  rewrite Hs, <- app_assoc. reflexivity.
Qed.

Lemma listed_keyword_bounds_category_witness :
  at_or_before "design" (detect_industry "Senior UX Lead" "Acme").
Proof.
  apply (listed_keyword_bounds_category "design"
           {| ind_name := "Design";
              ind_keywords := ["design"; "ux"; "ui"; "graphic"; "creative"] |}
           "ux" "Senior UX Lead" "Acme").
  - unfold get_available_industries. simpl. tauto.
  - simpl. tauto.
  - left. reflexivity.
Defined.

(** ** Links and names of the records *)

(** X4.  Two hash ids give the same link only when they are the same id;
    a NULL hash id gives the link of the id "None". *)
Theorem build_job_link_injective :
  (forall h1 h2,
      build_job_link (Some h1) = build_job_link (Some h2) -> h1 = h2)
  /\ build_job_link None = build_job_link (Some "None").
Proof.
  split; [|reflexivity].
  intros h1 h2 H. unfold build_job_link in H. cbn [str_opt] in H.
  now apply string_append_cancel in H.
Qed.

Lemma or_default_not_empty x d : d <> "" -> or_default x d <> "".
Proof. intros Hd. destruct x as [[|a s]|]; simpl; auto; discriminate. Qed.

(** X5.  No record listed by a flag endpoint has an empty title or an
    empty organization name. *)
Theorem listed_records_have_names :
  forall w days inactive_days lookback_days,
    Forall (fun rec => vacancy_name rec <> "" /\ company_name rec <> "")
      (listed (get_new_ts_posting days w))
    /\ Forall (fun rec => vacancy_name rec <> "" /\ company_name rec <> "")
         (listed (get_less_than_6 days w))
    /\ Forall (fun rec => vacancy_name rec <> "" /\ company_name rec <> "")
         (listed (get_no_activity inactive_days lookback_days w)).
Proof.
  intros w days inactive_days lookback_days.
  rewrite run_new_ts_posting, run_less_than_6, run_no_activity.
  unfold listed; cbn [fst].
  destruct (query_failure w); cbn [get_data data].
  - repeat split; constructor.
  - repeat split; apply Forall_forall; intros rec Hin;
      apply in_map_iff in Hin as [r [<- _]]; cbn;
      split; apply or_default_not_empty; discriminate.
Qed.

(* ================================================================== *)
(** ** The singleton connection *)

(** X6.  [get_poseidon] sets the connection when it returns, after which
    calling it again returns at once and changes nothing; when the factory
    raises, the connection was unset and stays unset, so that the next call
    tries the factory again. *)
Theorem get_poseidon_is_a_singleton :
  forall w,
    match get_poseidon w with
    | (inr _, w') =>
        poseidon_set w' = true /\ get_poseidon w' = (inr tt, w')
    | (inl _, w') =>
        poseidon_set w = false /\ poseidon_set w' = false
        /\ (pending w' = [] -> fst (get_poseidon w') = inr tt)
    end.
Proof.
  intros [wh set pend now]. unfold get_poseidon, client_call, bind. simpl.
  destruct set; simpl.
  - split; reflexivity.
  - destruct pend as [|[m|] rest]; simpl.
    + split; reflexivity.
    + repeat split. intros ->. reflexivity.
    + split; reflexivity.
Qed.

Lemma poseidon_set_after_calls w :
  poseidon_set w = true \/ query_failure w = None ->
  poseidon_set (after_calls w) = true.
Proof.
  unfold query_failure, after_calls, client_calls, get_poseidon, execute_query,
    client_call, bind, gets.
  destruct w as [wh set pend now]; simpl.
  destruct set; simpl.
  - intros _. destruct pend as [|[m|] rest]; reflexivity.
  - intros [H | H]; [discriminate H|]. revert H.
    destruct pend as [|[m|] rest]; simpl; try reflexivity; try discriminate.
    destruct rest as [|[m|] rest]; simpl; try reflexivity; discriminate.
Qed.

Lemma snd_all_high_priority_flags days w :
  snd (get_all_high_priority_flags days w)
  = after_calls (after_calls (after_calls w)).
Proof.
  unfold get_all_high_priority_flags, try_except, bind at 1.
  rewrite run_new_ts_posting. unfold bind at 1.
  rewrite run_less_than_6. unfold bind at 1.
  rewrite run_no_activity. reflexivity.
Qed.

Lemma snd_client_details email w :
  snd (get_client_details email w) = after_calls w.
Proof.
  rewrite run_client_details. destruct (query_failure w); [reflexivity|].
  destruct (Query.client_text email (warehouse w)); reflexivity.
Qed.

(** X7.  No endpoint drops the connection: when it is set before a
    request, it is set after it, whether the request succeeds, fails or
    raises. *)
Theorem endpoints_keep_the_connection :
  forall w days inactive_days lookback_days email,
    poseidon_set w = true ->
    poseidon_set (snd (get_new_ts_posting days w)) = true
    /\ poseidon_set (snd (get_less_than_6 days w)) = true
    /\ poseidon_set (snd (get_no_activity inactive_days lookback_days w)) = true
    /\ poseidon_set (snd (get_all_high_priority_flags days w)) = true
    /\ poseidon_set (snd (get_client_details email w)) = true
    /\ poseidon_set (snd (health_check w)) = true.
Proof.
  intros w days inactive_days lookback_days email H.
  rewrite run_new_ts_posting, run_less_than_6, run_no_activity,
    snd_all_high_priority_flags, snd_client_details. cbn [snd].
  assert (H1 : poseidon_set (after_calls w) = true)
    by (apply poseidon_set_after_calls; now left).
  assert (H2 : poseidon_set (after_calls (after_calls w)) = true)
    by (apply poseidon_set_after_calls; now left).
  repeat split; try assumption.
  apply poseidon_set_after_calls; now left.
Qed.

Lemma endpoints_keep_the_connection_witness :
  poseidon_set (snd (get_all_high_priority_flags 7
                       (set_pending [Some "reset"; None; Some "timeout"]
                          (set_poseidon world_demo)))) = true.
Proof.
  refine (proj1 (proj2 (proj2 (proj2
           (endpoints_keep_the_connection
              (set_pending [Some "reset"; None; Some "timeout"]
                 (set_poseidon world_demo)) 7 7 7 "" eq_refl))))).
Defined.

(** X8.  A querying endpoint whose client calls return leaves the
    connection set, also when the connection was unset before and also when
    the client endpoint raises its 404. *)
Theorem connected_after_successful_calls :
  forall w days inactive_days lookback_days email,
    query_failure w = None ->
    poseidon_set (snd (get_new_ts_posting days w)) = true
    /\ poseidon_set (snd (get_less_than_6 days w)) = true
    /\ poseidon_set (snd (get_no_activity inactive_days lookback_days w)) = true
    /\ poseidon_set (snd (get_client_details email w)) = true.
Proof.
  intros w days inactive_days lookback_days email H.
  rewrite run_new_ts_posting, run_less_than_6, run_no_activity,
    snd_client_details. cbn [snd].
  assert (H1 : poseidon_set (after_calls w) = true)
    by (apply poseidon_set_after_calls; now right).
  repeat split; assumption.
Qed.

Lemma connected_after_successful_calls_witness :
  poseidon_set world_three = false
  /\ fst (get_client_details "bob@acme.co" world_three) = inl not_found
  /\ poseidon_set (snd (get_client_details "bob@acme.co" world_three)) = true.
Proof.
  split; [reflexivity | split; [reflexivity|]].
  apply (connected_after_successful_calls world_three 7 7 30 "bob@acme.co").
  reflexivity.
Defined.

(* ================================================================== *)
(** ** What the other two flags list *)

(** X9.  When the query runs, the records listed by new-ts-posting are
    exactly the shaped rows of the postings joined to a poster profile whose
    publish date equals the first publish date of their poster, with status
    open, a business line other than torre_os or none, and a publish date in
    the lookback window; the review state plays no part, and it is copied
    into the record. *)
Theorem new_ts_posting_lists_first_postings :
  forall w days,
    query_failure w = None ->
    (forall rec,
        In rec (listed (get_new_ts_posting days w))
        <-> exists mj mg,
          In mj (mart_jobs (warehouse w)) /\ In mg (mart_genomes (warehouse w))
          /\ joined mj mg
          /\ (exists ts, mj_published_date mj = Some ts
                         /\ mj_poster_first_post mj = Some ts)
          /\ mj_status mj = Some "open"
          /\ mj_business_line mj <> Some "torre_os"
          /\ in_lookback_window (warehouse w) days (mj_published_date mj)
          /\ rec = shape "new_ts_posting" (Query.select mj mg (mj_review mj))).
Proof.
  intros w days Hok rec. rewrite (listed_new_ts_posting days w Hok).
  rewrite in_map_iff. split.
  - intros [r [<- Hr]]. apply In_new_ts_posting in Hr
      as (mj & mg & Hj & Hg & Hon & (H1 & H2 & H3 & H4) & ->).
    exists mj, mg. auto 10.
  - intros (mj & mg & Hj & Hg & Hon & H1 & H2 & H3 & H4 & ->).
    eexists. split; [reflexivity|]. apply In_new_ts_posting.
    exists mj, mg. repeat split; assumption.
Qed.

Lemma new_ts_posting_lists_first_postings_witness :
  In (shape "new_ts_posting" (Query.select untitled ana (Some "approved")))
    (listed (get_new_ts_posting 7 (world_of [untitled] [ana] []))).
Proof.
  apply (new_ts_posting_lists_first_postings (world_of [untitled] [ana] []) 7
           eq_refl).
  exists untitled, ana.
  split; [now left | split; [now left | split; [now exists "gg-ana"|]]].
  split; [now exists recent|].
  split; [reflexivity | split; [discriminate | split; [|reflexivity]]].
  exists recent. repeat split; vm_compute; congruence.
Defined.

(** X10.  When the query runs, the records listed by no-activity are
    exactly the shaped rows of the postings joined to a poster profile with
    review approved, status open, a business line other than torre_os or
    none, a publish date not before the start of the lookback window, and a
    last activity that is missing or strictly before today minus the
    inactivity threshold; a posting whose last activity is at or after that
    day does not qualify. *)
Theorem no_activity_lists_inactive_postings :
  forall w inactive_days lookback_days,
    query_failure w = None ->
    (forall rec,
        In rec (listed (get_no_activity inactive_days lookback_days w))
        <-> exists mj mg,
          In mj (mart_jobs (warehouse w)) /\ In mg (mart_genomes (warehouse w))
          /\ joined mj mg
          /\ no_activity_conditions (warehouse w) inactive_days lookback_days mj
          /\ rec = shape "no_activity" (Query.select mj mg tt))
    /\ (forall mj t,
           last_activity (mart_applications (warehouse w)) (mj_opportunity_id mj)
           = Some t ->
           current_date (warehouse w) - interval_days inactive_days <= t ->
           ~ no_activity_conditions (warehouse w) inactive_days lookback_days mj).
Proof.
  intros w inactive_days lookback_days Hok. split.
  - intros rec. rewrite (listed_no_activity _ _ w Hok), in_map_iff. split.
    + intros [r [<- Hr]]. apply In_no_activity in Hr
        as (mj & mg & Hj & Hg & Hon & Hc & ->).
      exists mj, mg. auto 7.
    + intros (mj & mg & Hj & Hg & Hon & Hc & ->).
      eexists. split; [reflexivity|]. apply In_no_activity.
      exists mj, mg. auto 7.
  - intros mj t Hla Hge (_ & _ & _ & _ & [Hnone | [t' [Ht' Hlt]]]).
    + rewrite Hla in Hnone. discriminate.
    + rewrite Hla in Ht'. inversion Ht'. lia.
Qed.

Lemma no_activity_lists_inactive_postings_witness :
  In (shape "no_activity" (Query.select five ana tt))
    (listed (get_no_activity 7 30 (active_on 19990)))
  /\ ~ no_activity_conditions (warehouse (active_on 19999)) 7 30 five.
Proof.
  destruct (no_activity_lists_inactive_postings (active_on 19990) 7 30 eq_refl)
    as [Hiff _].
  destruct (no_activity_lists_inactive_postings (active_on 19999) 7 30 eq_refl)
    as [_ Hnot].
  split.
  - apply Hiff. exists five, ana.
    split; [now left | split; [now left | split; [now exists "gg-ana"|]]].
    split; [|reflexivity].
    split; [reflexivity | split; [reflexivity | split; [discriminate|]]].
    split.
    + exists recent. split; [reflexivity | vm_compute; congruence].
    + right. exists (interval_days 19990). split; [reflexivity | reflexivity].
  - apply (Hnot five (interval_days 19999)); [reflexivity|].
    vm_compute; congruence.
Defined.

(* ================================================================== *)
(** ** Distinct rows, in order *)

(** X11.  No query returns a row twice, also when the tables hold
    duplicate postings or duplicate profiles. *)
Theorem query_rows_are_distinct :
  forall wh days inactive_days lookback_days,
    NoDup (Query.new_ts_posting days wh)
    /\ NoDup (Query.less_than_6 days wh)
    /\ NoDup (Query.no_activity inactive_days lookback_days wh).
Proof.
  intros. unfold Query.new_ts_posting, Query.less_than_6, Query.no_activity.
  split; [|split]; apply NoDup_distinct_ordered.
Qed.

Lemma before_not_earlier a b : Query.before a b = true -> not_earlier a b.
Proof.
  destruct a as [x|], b as [y|]; simpl; try discriminate; try tauto.
  intros H. apply Z.ltb_lt in H. lia.
Qed.

Lemma not_before_not_earlier a b : Query.before a b = false -> not_earlier b a.
Proof.
  destruct a as [x|], b as [y|]; simpl; try discriminate; try tauto.
  intros H. apply Z.ltb_ge in H. lia.
Qed.

Lemma not_earlier_trans a b c :
  not_earlier a b -> not_earlier b c -> not_earlier a c.
Proof.
  destruct a as [x|], b as [y|], c as [z|]; simpl; try tauto. lia.
Qed.

Lemma insert_desc_sorted {X} (r : Row X) l :
  StronglySorted
    (fun a b => not_earlier (r_published_date a) (r_published_date b)) l ->
  StronglySorted
    (fun a b => not_earlier (r_published_date a) (r_published_date b))
    (Query.insert_desc r l).
Proof.
  induction 1 as [|x t Ht IH Hx]; simpl.
  - constructor; constructor.
  - destruct (Query.before (r_published_date x) (r_published_date r)) eqn:Hb.
    + constructor; [exact IH|]. apply Forall_forall. intros y Hy.
      apply In_insert_desc in Hy as [-> | Hy].
      * now apply before_not_earlier.
      * rewrite Forall_forall in Hx. now apply Hx.
    + apply not_before_not_earlier in Hb.
      constructor; [now constructor|]. constructor; [exact Hb|].
      apply Forall_forall. intros y Hy. rewrite Forall_forall in Hx.
      eapply not_earlier_trans; [exact Hb | now apply Hx].
Qed.

Lemma distinct_ordered_sorted {X} d (l : list (Row X)) :
  StronglySorted
    (fun a b => not_earlier (r_published_date a) (r_published_date b))
    (Query.distinct_ordered d l).
Proof.
  unfold Query.distinct_ordered, Query.order_by_published_desc.
  induction (nodup (row_dec d) l) as [|x t IH]; simpl.
  - constructor.
  - now apply insert_desc_sorted.
Qed.

Lemma latest_first_map_shape {X} tag (rows : list (Row X)) :
  StronglySorted
    (fun a b => not_earlier (r_published_date a) (r_published_date b)) rows ->
  latest_first (map (shape tag) rows).
Proof.
  unfold latest_first. induction 1 as [|x t Ht IH Hx]; simpl.
  - constructor.
  - constructor; [exact IH|]. apply Forall_forall. intros y Hy.
    apply in_map_iff in Hy as [r [<- Hr]]. rewrite Forall_forall in Hx.
    cbn. now apply Hx.
Qed.

(** X12.  The records of every flag endpoint come latest first: no record
    is published earlier than a record listed after it. *)
Theorem listed_records_latest_first :
  forall w days inactive_days lookback_days,
    latest_first (listed (get_new_ts_posting days w))
    /\ latest_first (listed (get_less_than_6 days w))
    /\ latest_first (listed (get_no_activity inactive_days lookback_days w)).
Proof.
  intros w days inactive_days lookback_days.
  rewrite run_new_ts_posting, run_less_than_6, run_no_activity.
  unfold listed; cbn [fst].
  destruct (query_failure w); cbn [get_data data].
  - repeat split; constructor.
  - unfold Query.new_ts_posting, Query.less_than_6, Query.no_activity.
    split; [|split]; apply latest_first_map_shape, distinct_ordered_sorted.
Qed.

(* ================================================================== *)
(** ** The parameters of the flags *)

Lemma in_lookback_window_mono wh days days' t :
  days <= days' -> in_lookback_window wh days t -> in_lookback_window wh days' t.
Proof.
  intros Hle [ts (Ht & Hlo & Hhi)]. exists ts. unfold interval_days in *.
  repeat split; try assumption. lia.
Qed.

(** X13.  A longer lookback loses nothing when it is answered: over one
    warehouse, if the request with [days'] runs its query, it lists what
    the request with [days] lists, for every [days'] at least as large;
    no-activity also keeps what it lists when the inactivity threshold gets
    smaller.  (The request with the larger lookback may fail where the
    other does not, the warehouse rejecting an interval that leaves the
    range of its timestamps; it then lists nothing.) *)
Theorem longer_lookback_lists_more :
  forall w w' days days' inactive_days inactive_days',
    warehouse w' = warehouse w ->
    query_failure w' = None ->
    days <= days' ->
    inactive_days' <= inactive_days ->
    incl (listed (get_new_ts_posting days w))
      (listed (get_new_ts_posting days' w'))
    /\ incl (listed (get_less_than_6 days w))
         (listed (get_less_than_6 days' w'))
    /\ incl (listed (get_no_activity inactive_days days w))
         (listed (get_no_activity inactive_days' days' w')).
Proof.
  intros w w' days days' inactive_days inactive_days' Hwh Hok Hd Hi.
  rewrite (listed_new_ts_posting _ _ Hok), (listed_less_than_6 _ _ Hok),
    (listed_no_activity _ _ _ Hok), Hwh.
  rewrite run_new_ts_posting, run_less_than_6, run_no_activity.
  unfold listed; cbn [fst].
  destruct (query_failure w); cbn [get_data data].
  - repeat split; intros rec [].
  - repeat split; intros rec Hin; apply in_map_iff in Hin as [r [<- Hr]];
      apply in_map.
    + apply In_new_ts_posting in Hr as (mj & mg & Hj & Hg & Hon & Hc & ->).
      apply In_new_ts_posting. exists mj, mg.
      destruct Hc as (H1 & H2 & H3 & H4).
      repeat split; try assumption. now apply (in_lookback_window_mono _ days).
    + apply In_less_than_6 in Hr as (mj & mg & Hj & Hg & Hon & Hc & ->).
      apply In_less_than_6. exists mj, mg.
      destruct Hc as (H1 & H2 & H3 & H4 & H5).
      repeat split; try assumption. now apply (in_lookback_window_mono _ days).
    + apply In_no_activity in Hr as (mj & mg & Hj & Hg & Hon & Hc & ->).
      apply In_no_activity. exists mj, mg.
      destruct Hc as (H1 & H2 & H3 & [ts [Ht Hlo]] & H5).
      repeat split; try assumption.
      * exists ts. split; [assumption|]. unfold interval_days in *. lia.
      * destruct H5 as [H5 | [t [Ht5 Hlt]]]; [now left | right].
        exists t. split; [assumption|]. unfold interval_days in *. lia.
Qed.

Lemma longer_lookback_lists_more_witness :
  incl (listed (get_less_than_6 3 world_demo))
    (listed (get_less_than_6 30 world_demo))
  /\ incl (listed (get_less_than_6 3
                    (set_pending [None; Some "timestamp out of range"]
                       world_demo)))
       (listed (get_less_than_6 30 world_demo)).
Proof.
  split.
  - refine (proj1 (proj2 (longer_lookback_lists_more world_demo world_demo
                            3 30 7 7 eq_refl eq_refl _ _))); lia.
  - refine (proj1 (proj2 (longer_lookback_lists_more
                            (set_pending [None; Some "timestamp out of range"]
                               world_demo)
                            world_demo 3 30 7 7 eq_refl eq_refl _ _))); lia.
Defined.

(** X14.  With a lookback of minus one day or less the window is empty:
    new-ts-posting and less-than-6 still succeed when the query runs, with
    count 0 and no record. *)
Theorem negative_lookback_lists_nothing :
  forall w days,
    days <= -1 ->
    listed (get_new_ts_posting days w) = []
    /\ listed (get_less_than_6 days w) = []
    /\ get_count (match fst (get_new_ts_posting days w) with
                  | inr r => r
                  | inl e => Failure (str_exn e)
                  end) = 0
    /\ get_count (match fst (get_less_than_6 days w) with
                  | inr r => r
                  | inl e => Failure (str_exn e)
                  end) = 0.
Proof.
  intros w days Hd.
  assert (Hempty : forall t, ~ in_lookback_window (warehouse w) days t).
  { intros t [ts (_ & Hlo & Hhi)]. unfold interval_days in *. lia. }
  assert (H1 : listed (get_new_ts_posting days w) = []).
  { destruct (listed (get_new_ts_posting days w)) as [|rec t] eqn:E;
      [reflexivity|].
    elim (Hempty (published_date rec)).
    apply (new_ts_posting_within_window w days). rewrite E. now left. }
  assert (H2 : listed (get_less_than_6 days w) = []).
  { destruct (listed (get_less_than_6 days w)) as [|rec t] eqn:E;
      [reflexivity|].
    elim (Hempty (published_date rec)).
    apply (less_than_6_within_window w days). rewrite E. now left. }
  split; [exact H1 | split; [exact H2|]].
  revert H1 H2. rewrite run_new_ts_posting, run_less_than_6.
  unfold listed; cbn [fst].
  destruct (query_failure w); cbn [get_data data get_count count].
  - intros _ _. split; reflexivity.
  - intros -> ->. split; reflexivity.
Qed.

Lemma negative_lookback_lists_nothing_witness :
  listed (get_less_than_6 (-1) world_demo) = []
  /\ listed (get_less_than_6 0 world_demo) = []
  /\ listed (get_less_than_6 3 world_demo) <> [].
Proof.
  split; [|split; [reflexivity | discriminate]].
  apply (negative_lookback_lists_nothing world_demo (-1)). lia.
Defined.

(* ================================================================== *)
(** ** The summary of a client *)

Lemma count_distinct_le l1 l2 :
  (forall x, In (Some x) l1 -> In (Some x) l2) ->
  (count_distinct l1 <= count_distinct l2)%nat.
Proof.
  intros H. unfold count_distinct. apply NoDup_incl_length; [apply NoDup_nodup|].
  intros x Hx. apply nodup_In. apply nodup_In in Hx.
  apply In_non_null. apply In_non_null in Hx. now apply H.
Qed.

Lemma open_hash_id_is_hash_id l x :
  In (Some x) (map Query.open_hash_id l) -> In (Some x) (map mj_hash_id l).
Proof.
  rewrite !in_map_iff. intros [mj [Hx Hmj]]. exists mj. split; [|assumption].
  unfold Query.open_hash_id in Hx.
  destruct (holds _); [assumption | discriminate].
Qed.

Lemma agg_min_max_in_order l : dates_in_order (agg_min l) (agg_max l).
Proof.
  pose proof (agg_min_spec l) as Hmin. pose proof (agg_max_spec l) as Hmax.
  destruct (agg_min l) as [a|], (agg_max l) as [b|]; simpl.
  - destruct Hmin as [Ia _], Hmax as [_ Ub]. now apply Ub.
  - destruct Hmin as [Ia _]. now apply (Hmax a).
  - destruct Hmax as [Ib _]. now apply (Hmin b).
  - exact I.
Qed.

(** X15.  For an e-mail without quote or backslash, a successful client
    lookup describes a poster profile with that e-mail: the name, e-mail and
    id are those of one profile row, the number of open postings does not
    exceed the number of postings, and the two dates are both missing or the
    first is not after the last. *)
Theorem client_summary_is_consistent :
  forall w email d,
    Query.literal_safe email = true ->
    fst (get_client_details email w) = inr (ClientSuccess d) ->
    cd_email d = Some email
    /\ (exists mg, In mg (mart_genomes (warehouse w))
                   /\ mg_name mg = cd_name d /\ mg_email mg = cd_email d
                   /\ mg_gg_id mg = cd_gg_id d)
    /\ (open_jobs d <= total_jobs_posted d)%nat
    /\ dates_in_order (first_job_date d) (last_job_date d).
Proof.
  intros w email d Hsafe H. rewrite run_client_details in H.
  destruct (query_failure w); [discriminate H|].
  destruct (Query.client_text email (warehouse w)) as [|r rest] eqn:Hres;
    [discriminate H|].
  cbn [fst] in H. inversion H; subst d; clear H.
  cbn [cd_name cd_email cd_gg_id total_jobs_posted open_jobs first_job_date
         last_job_date].
  assert (Hin : In r (Query.client email (warehouse w))).
  { unfold Query.client_text in Hres. rewrite Hsafe in Hres. rewrite Hres.
    now left. }
  apply In_client in Hin as (H1 & H2 & H3 & H4 & H5 & H6).
  split; [exact H1 | split; [exact H2 | split]].
  - rewrite H3, H4. apply count_distinct_le. apply open_hash_id_is_hash_id.
  - rewrite H5, H6. apply agg_min_max_in_order.
Qed.

Lemma client_summary_is_consistent_witness :
  exists d,
    fst (get_client_details "ana@acme.co" world_three) = inr (ClientSuccess d)
    /\ (open_jobs d <= total_jobs_posted d)%nat
    /\ dates_in_order (first_job_date d) (last_job_date d).
Proof.
  eexists. split; [reflexivity|].
  refine (proj2 (proj2 (client_summary_is_consistent world_three "ana@acme.co"
                          _ eq_refl eq_refl))).
Defined.

(** X16.  A poster without postings is found all the same: for an e-mail
    without quote or backslash that a profile row carries, the lookup never
    raises the 404 when the client calls return, and a profile whose id no
    posting bears gives counts of 0 and no dates. *)
Theorem client_without_postings_is_found :
  forall w email mg,
    Query.literal_safe email = true ->
    query_failure w = None ->
    In mg (mart_genomes (warehouse w)) ->
    mg_email mg = Some email ->
    (exists d, fst (get_client_details email w) = inr (ClientSuccess d))
    /\ (forall d,
           fst (get_client_details email w) = inr (ClientSuccess d) ->
           postings_of (warehouse w) (cd_gg_id d) = [] ->
           total_jobs_posted d = 0%nat /\ open_jobs d = 0%nat
           /\ first_job_date d = None /\ last_job_date d = None).
Proof.
  intros w email mg Hsafe Hok Hg Hmail. rewrite run_client_details, Hok.
  destruct (Query.client_text email (warehouse w)) as [|r rest] eqn:Hres.
  - unfold Query.client_text in Hres. rewrite Hsafe in Hres.
    elim (proj1 (client_empty email (warehouse w)) Hres mg Hg Hmail).
  - cbn [fst]. split; [eexists; reflexivity|].
    intros d Hd Hnone. inversion Hd; subst d; clear Hd.
    cbn [cd_gg_id total_jobs_posted open_jobs first_job_date last_job_date]
      in *.
    assert (Hin : In r (Query.client email (warehouse w))).
    { unfold Query.client_text in Hres. rewrite Hsafe in Hres. rewrite Hres.
      now left. }
    apply In_client in Hin as (_ & _ & H3 & H4 & H5 & H6).
    rewrite H3, H4, H5, H6, Hnone. repeat split.
Qed.

Lemma client_without_postings_is_found_witness :
  exists d,
    fst (get_client_details "ana@acme.co" (world_of [] [ana] []))
    = inr (ClientSuccess d).
Proof.
  refine (proj1 (client_without_postings_is_found (world_of [] [ana] [])
                   "ana@acme.co" ana eq_refl eq_refl _ eq_refl)).
  now left.
Defined.

(* ================================================================== *)
(** ** Failures inside the aggregate *)

Lemma calls_return_when_nothing_pending w :
  pending w = [] -> query_failure w = None /\ pending (after_calls w) = [].
Proof.
  unfold query_failure, after_calls, client_calls, get_poseidon, execute_query,
    client_call, bind, gets.
  destruct w as [wh set pend now]; simpl. intros ->.
  destruct set; simpl; split; reflexivity.
Qed.

(** X17.  A failure of the first flag does not stop the aggregate: when
    the client calls of new-ts-posting raise and every later call returns,
    the aggregate embeds the failure of new-ts-posting, runs the other two
    flags to success, and totals their two counts. *)
Theorem later_flags_run_after_a_failure :
  forall w days e,
    query_failure w = Some e ->
    pending (after_calls w) = [] ->
    exists body w',
      get_all_high_priority_flags days w = (inr (AllSuccess body), w')
      /\ flags_new_ts_posting body = Failure (str_exn e)
      /\ success (flags_less_than_6 body) = true
      /\ success (flags_no_activity body) = true
      /\ get_data (flags_less_than_6 body)
         = map (shape "less_than_6") (Query.less_than_6 days (warehouse w))
      /\ get_data (flags_no_activity body)
         = map (shape "no_activity") (Query.no_activity 7 days (warehouse w))
      /\ total_clients_to_contact (summary body)
         = Z.of_nat (List.length (Query.less_than_6 days (warehouse w)))
           + Z.of_nat (List.length (Query.no_activity 7 days (warehouse w))).
Proof.
  intros w days e He Hp.
  destruct (calls_return_when_nothing_pending _ Hp) as [H2 Hp2].
  destruct (calls_return_when_nothing_pending _ Hp2) as [H3 _].
  do 2 eexists. split.
  - unfold get_all_high_priority_flags, try_except, bind at 1.
    rewrite run_new_ts_posting. unfold bind at 1.
    rewrite run_less_than_6. unfold bind at 1.
    rewrite run_no_activity. rewrite He, H2, H3. reflexivity.
  - cbn [flags_new_ts_posting flags_less_than_6 flags_no_activity summary
           total_clients_to_contact success listed fst get_data data get_count
           count].
    rewrite !warehouse_after_calls, !length_map.
    repeat split.
Qed.

Lemma later_flags_run_after_a_failure_witness :
  exists body w',
    get_all_high_priority_flags 30 (set_pending [Some "refused"] world_demo)
    = (inr (AllSuccess body), w')
    /\ flags_new_ts_posting body = Failure "refused"
    /\ total_clients_to_contact (summary body) = 3.
Proof.
  destruct (later_flags_run_after_a_failure
              (set_pending [Some "refused"] world_demo) 30 (Exception "refused")
              eq_refl eq_refl)
    as (body & w' & H & H1 & _ & _ & _ & _ & Ht).
  exists body, w'. split; [exact H | split; [exact H1|]].
  rewrite Ht. reflexivity.
Defined.
